(** * SymoCraft: the vertex batch of the renderer

    A shallow embedding of [include/renderer/batch.hpp] (class template
    [Batch<T>]) together with the part of its environment the class talks
    to: the host heap that holds the staging array, the OpenGL buffer
    store behind the direct-state-access calls, and the two diagnostic
    sinks ([AmoLogger_Error] and [std::cerr]).

    Conventions.
    - [uint32] members are values of [N] and every assignment to one is
      reduced modulo 2^32; [int32] members are values of [Z].
    - [size_t] is 64 bits wide (the DSA entry points used here need an
      OpenGL 4.5 desktop context); products computed in [size_t] are
      reduced modulo 2^64.
    - Memory is byte addressed.  A byte that was never written is [None].
    - A diagnostic is recorded by the text of its C++ literal, escape
      sequences as written: [\n] at the end of a message is the line
      feed of the program's output.
    - A member function is a function from the machine to an [Outcome]
      that says how control left the function body. *)

From Stdlib Require Import NArith ZArith Lia List Bool.
From Stdlib Require Import Strings.String Strings.Byte.
From stdpp Require Import base option gmap.

Open Scope N_scope.

(** ** Machine integers *)

Definition wrap32 (n : N) : N := n mod 2 ^ 32.
Definition wrap64 (n : N) : N := n mod 2 ^ 64.

(** Multiplication in [size_t]. *)
Definition size_mul (a b : N) : N := wrap64 (a * b).

(** ** Bytes and object representations *)

Definition byte_of_N (n : N) : byte :=
  match Byte.of_N (n mod 256) with
  | Some b => b
  | None => Byte.x00
  end.

(** Little-endian image of a 32-bit pattern. *)
Definition le32 (n : N) : list byte :=
  [ byte_of_N n; byte_of_N (N.shiftr n 8);
    byte_of_N (N.shiftr n 16); byte_of_N (N.shiftr n 24) ].

(** Two's complement pattern of an [int32]. *)
Definition int32_bits (z : Z) : N := Z.to_N (z mod 2 ^ 32)%Z.

(** What the template parameter [T] has to provide: [sizeof(T)] and the
    object representation that assignment and [glNamedBufferSubData]
    copy. *)
Class VertexLayout (T : Type) := {
  sizeofT : N;
  encode : T -> list byte;
  encode_length : forall v : T, N.of_nat (length (encode v)) = sizeofT
}.

(** [glm::ivec3] and [glm::vec3]; a [float] is carried as its IEEE-754
    binary32 pattern, which is all that copying it can observe. *)
Record ivec3 := { ix : Z; iy : Z; iz : Z }.
Record vec3 := { fx : N; fy : N; fz : N }.

Record Vertex3D := {
  pos_coord : ivec3;
  tex_coord : vec3;
  normal : N
}.

Definition encode_Vertex3D (v : Vertex3D) : list byte :=
  le32 (int32_bits (ix (pos_coord v))) ++
  le32 (int32_bits (iy (pos_coord v))) ++
  le32 (int32_bits (iz (pos_coord v))) ++
  le32 (fx (tex_coord v)) ++ le32 (fy (tex_coord v)) ++
  le32 (fz (tex_coord v)) ++ le32 (normal v).

(** [sizeof(Vertex3D)]: seven 4-byte members, no padding. *)
Definition sizeof_Vertex3D : N := 28.

#[export] Instance Vertex3D_layout : VertexLayout Vertex3D := {|
  sizeofT := sizeof_Vertex3D;
  encode := encode_Vertex3D;
  encode_length := fun v => eq_refl
|}.

Record VertexAttribute := {
  attribute_slot : N;
  element_amount : N;
  data_type : N;
  offset : N
}.

(** Reserved for indirect draws; no member function of [Batch] uses it. *)
Module DrawCommand.

Record DrawArraysIndirectCommand := {
  count : N;
  instanceCount : N;
  first : N;
  baseInstance : N
}.

End DrawCommand.

Definition kMaxBatchSize : N := 10000000.

(** ** Byte memory *)

Definition Bytes := N -> option byte.

Definition no_bytes : Bytes := fun _ => None.

(** The bytes of [l] laid down from offset [off] on. *)
Definition write_bytes (off : N) (l : list byte) (mem : Bytes) : Bytes :=
  fun a =>
    if (off <=? a) && (a <? off + N.of_nat (length l))
    then nth_error l (N.to_nat (a - off))
    else mem a.

(** [len] bytes of [src], read from its offset 0, laid down from [off]. *)
Definition copy_bytes (off len : N) (src mem : Bytes) : Bytes :=
  fun a => if (off <=? a) && (a <? off + len) then src (a - off) else mem a.

(** The [len] bytes found from [off] on. *)
Definition read_bytes (mem : Bytes) (off len : N) : list (option byte) :=
  map (fun i => mem (off + N.of_nat i)) (seq 0 (N.to_nat len)).

(** A region of host memory: what a pointer designates.  [blk_size] is
    the number of bytes that may be accessed through it. *)
Record Block := { blk_size : N; blk_bytes : Bytes }.

(** The array of [T] a [const T*] argument points into. *)
Definition array_block {T} `{VertexLayout T} (a : list T) : Block :=
  let img := concat (map encode a) in
  {| blk_size := N.of_nat (length img);
     blk_bytes := fun o => nth_error img (N.to_nat o) |}.

(** ** The OpenGL objects the batch uses *)

Definition GL_TRIANGLES : N := 4.
Definition GL_FALSE : N := 0.
Definition GL_DYNAMIC_STORAGE_BIT : N := 256.
Definition GL_DYNAMIC_DRAW : N := 35048.

(** The component types of a vertex attribute format, and [GL_BGRA],
    which may stand in the place of a component count. *)
Definition GL_BYTE : N := 5120.
Definition GL_UNSIGNED_BYTE : N := 5121.
Definition GL_SHORT : N := 5122.
Definition GL_UNSIGNED_SHORT : N := 5123.
Definition GL_INT : N := 5124.
Definition GL_UNSIGNED_INT : N := 5125.
Definition GL_FLOAT : N := 5126.
Definition GL_DOUBLE : N := 5130.
Definition GL_HALF_FLOAT : N := 5131.
Definition GL_FIXED : N := 5132.
Definition GL_INT_2_10_10_10_REV : N := 36255.
Definition GL_UNSIGNED_INT_2_10_10_10_REV : N := 33640.
Definition GL_UNSIGNED_INT_10F_11F_11F_REV : N := 35899.
Definition GL_BGRA : N := 32993.

Inductive GLerror := GL_INVALID_ENUM | GL_INVALID_VALUE | GL_INVALID_OPERATION.

(** The limits of the implementation that the calls of [init] are
    checked against: [GL_MAX_VERTEX_ATTRIBS],
    [GL_MAX_VERTEX_ATTRIB_BINDINGS],
    [GL_MAX_VERTEX_ATTRIB_RELATIVE_OFFSET] and
    [GL_MAX_VERTEX_ATTRIB_STRIDE]. *)
Record GLlimits := {
  max_vertex_attribs : N;
  max_vertex_attrib_bindings : N;
  max_vertex_attrib_relative_offset : N;
  max_vertex_attrib_stride : N
}.

(** The least values OpenGL 4.5 allows for them. *)
Definition least_limits : GLlimits :=
  {| max_vertex_attribs := 16; max_vertex_attrib_bindings := 16;
     max_vertex_attrib_relative_offset := 2047;
     max_vertex_attrib_stride := 2048 |}.

(** Bits [glNamedBufferStorage] accepts in [flags]: the two map bits,
    persistent, coherent, dynamic storage and client storage. *)
Definition storage_flag_bits : N := 963.

Record GLBuffer := {
  buf_immutable : bool;
  buf_flags : N;
  buf_size : N;
  buf_bytes : Bytes
}.

Record AttribFormat := {
  fmt_size : N;
  fmt_type : N;
  fmt_normalized : N;
  fmt_relativeoffset : N
}.

Record VAO := {
  vao_buffers : gmap N (N * N * N);
  vao_enabled : gset N;
  vao_formats : gmap N AttribFormat;
  vao_attrib_binding : gmap N N
}.

(** A [glDrawArrays] command as it reached GL: [first] is a [GLint] and
    [count] a [GLsizei], both signed. *)
Record DrawArraysCall := {
  call_vao : N;
  call_mode : N;
  call_first : Z;
  call_count : Z
}.

Record GL := {
  gl_limits : GLlimits;
  gl_buffers : gmap N GLBuffer;
  gl_vaos : gmap N VAO;
  gl_names : N;
  gl_bound_vao : N;
  gl_draws : list DrawArraysCall;
  gl_errors : list GLerror
}.

Definition gl_fail (e : GLerror) (g : GL) : GL :=
  {| gl_limits := gl_limits g; gl_buffers := gl_buffers g;
     gl_vaos := gl_vaos g;
     gl_names := gl_names g; gl_bound_vao := gl_bound_vao g;
     gl_draws := gl_draws g; gl_errors := gl_errors g ++ [e] |}.

Definition gl_set_buffer (name : N) (b : GLBuffer) (g : GL) : GL :=
  {| gl_limits := gl_limits g; gl_buffers := <[name := b]> (gl_buffers g);
     gl_vaos := gl_vaos g;
     gl_names := gl_names g; gl_bound_vao := gl_bound_vao g;
     gl_draws := gl_draws g; gl_errors := gl_errors g |}.

Definition gl_set_vao (name : N) (v : VAO) (g : GL) : GL :=
  {| gl_limits := gl_limits g; gl_buffers := gl_buffers g;
     gl_vaos := <[name := v]> (gl_vaos g);
     gl_names := gl_names g; gl_bound_vao := gl_bound_vao g;
     gl_draws := gl_draws g; gl_errors := gl_errors g |}.

(** A name no object has been given yet (buffers and vertex arrays draw
    from one counter here, which keeps their names apart). *)
Definition gl_fresh (g : GL) : N * GL :=
  let name := N.succ (gl_names g) in
  (name,
   {| gl_limits := gl_limits g; gl_buffers := gl_buffers g;
      gl_vaos := gl_vaos g;
      gl_names := name; gl_bound_vao := gl_bound_vao g;
      gl_draws := gl_draws g; gl_errors := gl_errors g |}).

(** [glCreateBuffers(1, &name)]: a new buffer object without a store. *)
Definition glCreateBuffers (g : GL) : N * GL :=
  let '(name, g1) := gl_fresh g in
  (name,
   gl_set_buffer name
     {| buf_immutable := false; buf_flags := 0; buf_size := 0;
        buf_bytes := no_bytes |} g1).

(** [glCreateVertexArrays(1, &name)]. *)
Definition glCreateVertexArrays (g : GL) : N * GL :=
  let '(name, g1) := gl_fresh g in
  (name,
   gl_set_vao name
     {| vao_buffers := ∅; vao_enabled := ∅; vao_formats := ∅;
        vao_attrib_binding := ∅ |} g1).

(** [glNamedBufferStorage(buffer, size, nullptr, flags)]: an immutable
    store of [size] undefined bytes. *)
Definition glNamedBufferStorage (buffer size flags : N) (g : GL) : GL :=
  match gl_buffers g !! buffer with
  | None => gl_fail GL_INVALID_OPERATION g
  | Some b =>
      if buf_immutable b then gl_fail GL_INVALID_OPERATION g
      else if (size =? 0) || negb (N.ldiff flags storage_flag_bits =? 0)
      then gl_fail GL_INVALID_VALUE g
      else gl_set_buffer buffer
             {| buf_immutable := true; buf_flags := flags;
                buf_size := size; buf_bytes := no_bytes |} g
  end.

Definition buffer_updatable (b : GLBuffer) : bool :=
  negb (buf_immutable b) || N.testbit (buf_flags b) 8.

Inductive MemFault := NullPointer | InvalidPointer | OutOfBounds.

Inductive GLresult := GLdone (g : GL) | GLfault (f : MemFault).

(** [glNamedBufferSubData(buffer, offset, size, data)].  The range is
    validated first; only an accepted call reads [size] bytes through
    the host pointer, given here as the block it designates ([None] for
    a pointer that designates nothing). *)
Definition glNamedBufferSubData (buffer offset size : N)
    (src : option Block) (g : GL) : GLresult :=
  match gl_buffers g !! buffer with
  | None => GLdone (gl_fail GL_INVALID_OPERATION g)
  | Some b =>
      if negb (buffer_updatable b) then GLdone (gl_fail GL_INVALID_OPERATION g)
      else if buf_size b <? offset + size then GLdone (gl_fail GL_INVALID_VALUE g)
      else if size =? 0 then GLdone g
      else match src with
           | None => GLfault NullPointer
           | Some blk =>
               if blk_size blk <? size then GLfault OutOfBounds
               else GLdone
                      (gl_set_buffer buffer
                         {| buf_immutable := buf_immutable b;
                            buf_flags := buf_flags b;
                            buf_size := buf_size b;
                            buf_bytes :=
                              copy_bytes offset size (blk_bytes blk)
                                (buf_bytes b) |} g)
           end
  end.

Definition vao_update (vaobj : N) (f : VAO -> VAO) (g : GL) : GL :=
  match gl_vaos g !! vaobj with
  | None => gl_fail GL_INVALID_OPERATION g
  | Some v => gl_set_vao vaobj (f v) g
  end.

(** [glVertexArrayVertexBuffer(vaobj, bindingindex, buffer, offset,
    stride)].  [offset] and [stride] reach GL as signed values; the
    arguments [init] passes are not negative. *)
Definition glVertexArrayVertexBuffer
    (vaobj bindingindex buffer offs stride : N) (g : GL) : GL :=
  if negb (buffer =? 0) && negb (bool_decide (is_Some (gl_buffers g !! buffer)))
  then gl_fail GL_INVALID_OPERATION g
  else if (max_vertex_attrib_bindings (gl_limits g) <=? bindingindex)
          || (max_vertex_attrib_stride (gl_limits g) <? stride)
  then match gl_vaos g !! vaobj with
       | None => gl_fail GL_INVALID_OPERATION g
       | Some _ => gl_fail GL_INVALID_VALUE g
       end
  else vao_update vaobj
         (fun v =>
            {| vao_buffers := <[bindingindex := (buffer, offs, stride)]> (vao_buffers v);
               vao_enabled := vao_enabled v; vao_formats := vao_formats v;
               vao_attrib_binding := vao_attrib_binding v |}) g.

(** [glEnableVertexArrayAttrib(vaobj, index)]. *)
Definition glEnableVertexArrayAttrib (vaobj index : N) (g : GL) : GL :=
  if max_vertex_attribs (gl_limits g) <=? index
  then match gl_vaos g !! vaobj with
       | None => gl_fail GL_INVALID_OPERATION g
       | Some _ => gl_fail GL_INVALID_VALUE g
       end
  else vao_update vaobj
         (fun v =>
            {| vao_buffers := vao_buffers v;
               vao_enabled := {[ index ]} ∪ vao_enabled v;
               vao_formats := vao_formats v;
               vao_attrib_binding := vao_attrib_binding v |}) g.

(** The component counts and the component types
    [glVertexArrayAttribFormat] knows. *)
Definition format_size_known (size : N) : bool :=
  (size =? 1) || (size =? 2) || (size =? 3) || (size =? 4)
  || (size =? GL_BGRA).

Definition format_type_known (type : N) : bool :=
  (type =? GL_BYTE) || (type =? GL_UNSIGNED_BYTE) || (type =? GL_SHORT)
  || (type =? GL_UNSIGNED_SHORT) || (type =? GL_INT)
  || (type =? GL_UNSIGNED_INT) || (type =? GL_FLOAT) || (type =? GL_DOUBLE)
  || (type =? GL_HALF_FLOAT) || (type =? GL_FIXED)
  || (type =? GL_INT_2_10_10_10_REV)
  || (type =? GL_UNSIGNED_INT_2_10_10_10_REV)
  || (type =? GL_UNSIGNED_INT_10F_11F_11F_REV).

(** The combinations of count, type and normalization it refuses:
    [GL_BGRA] with a type other than unsigned byte or the two 2-10-10-10
    types, or not normalized; a 2-10-10-10 type with a count other than 4
    or [GL_BGRA]; the 10F-11F-11F type with a count other than 3. *)
Definition format_combination_refused (size type normalized : N) : bool :=
  ((size =? GL_BGRA)
   && negb ((type =? GL_UNSIGNED_BYTE) || (type =? GL_INT_2_10_10_10_REV)
            || (type =? GL_UNSIGNED_INT_2_10_10_10_REV)))
  || (((type =? GL_INT_2_10_10_10_REV)
       || (type =? GL_UNSIGNED_INT_2_10_10_10_REV))
      && negb ((size =? 4) || (size =? GL_BGRA)))
  || ((type =? GL_UNSIGNED_INT_10F_11F_11F_REV) && negb (size =? 3))
  || ((size =? GL_BGRA) && (normalized =? GL_FALSE)).

(** The error [glVertexArrayAttribFormat] raises for its arguments on an
    existing vertex array, if any. *)
Definition format_error (lim : GLlimits)
    (attribindex size type normalized relativeoffset : N) : option GLerror :=
  if max_vertex_attribs lim <=? attribindex then Some GL_INVALID_VALUE
  else if negb (format_size_known size) then Some GL_INVALID_VALUE
  else if negb (format_type_known type) then Some GL_INVALID_ENUM
  else if format_combination_refused size type normalized
  then Some GL_INVALID_OPERATION
  else if max_vertex_attrib_relative_offset lim <? relativeoffset
  then Some GL_INVALID_VALUE
  else None.

(** [glVertexArrayAttribFormat(vaobj, attribindex, size, type,
    normalized, relativeoffset)]. *)
Definition glVertexArrayAttribFormat
    (vaobj attribindex size type normalized relativeoffset : N) (g : GL) : GL :=
  match format_error (gl_limits g) attribindex size type normalized
          relativeoffset with
  | Some e =>
      match gl_vaos g !! vaobj with
      | None => gl_fail GL_INVALID_OPERATION g
      | Some _ => gl_fail e g
      end
  | None =>
      vao_update vaobj
        (fun v =>
           {| vao_buffers := vao_buffers v; vao_enabled := vao_enabled v;
              vao_formats :=
                <[attribindex :=
                    {| fmt_size := size; fmt_type := type;
                       fmt_normalized := normalized;
                       fmt_relativeoffset := relativeoffset |}]>
                  (vao_formats v);
              vao_attrib_binding := vao_attrib_binding v |}) g
  end.

(** [glVertexArrayAttribBinding(vaobj, attribindex, bindingindex)]. *)
Definition glVertexArrayAttribBinding
    (vaobj attribindex bindingindex : N) (g : GL) : GL :=
  if (max_vertex_attribs (gl_limits g) <=? attribindex)
     || (max_vertex_attrib_bindings (gl_limits g) <=? bindingindex)
  then match gl_vaos g !! vaobj with
       | None => gl_fail GL_INVALID_OPERATION g
       | Some _ => gl_fail GL_INVALID_VALUE g
       end
  else vao_update vaobj
         (fun v =>
            {| vao_buffers := vao_buffers v; vao_enabled := vao_enabled v;
               vao_formats := vao_formats v;
               vao_attrib_binding :=
                 <[attribindex := bindingindex]> (vao_attrib_binding v) |}) g.

Definition glBindVertexArray (array : N) (g : GL) : GL :=
  if (array =? 0) || bool_decide (is_Some (gl_vaos g !! array))
  then {| gl_limits := gl_limits g; gl_buffers := gl_buffers g;
          gl_vaos := gl_vaos g;
          gl_names := gl_names g; gl_bound_vao := array;
          gl_draws := gl_draws g; gl_errors := gl_errors g |}
  else gl_fail GL_INVALID_OPERATION g.

(** The value a [uint32] has once it is passed for a [GLsizei], a signed
    32-bit integer. *)
Definition to_GLsizei (n : N) : Z :=
  let z := (Z.of_N n mod 2 ^ 32)%Z in
  if (z <? 2 ^ 31)%Z then z else (z - 2 ^ 32)%Z.

(** [glDrawArrays(mode, first, count)].  [gl_draws] is the trace of the
    commands as they reached GL, each with the vertex array bound at
    that moment; with a negative [count] GL raises [GL_INVALID_VALUE]
    and draws nothing.  [Draw] passes the constants [GL_TRIANGLES] and 0
    for [mode] and [first]. *)
Definition glDrawArrays (mode : N) (first count : Z) (g : GL) : GL :=
  let issued :=
    {| gl_limits := gl_limits g; gl_buffers := gl_buffers g;
       gl_vaos := gl_vaos g;
       gl_names := gl_names g; gl_bound_vao := gl_bound_vao g;
       gl_draws :=
         gl_draws g ++
         [ {| call_vao := gl_bound_vao g; call_mode := mode;
              call_first := first; call_count := count |} ];
       gl_errors := gl_errors g |} in
  if (count <? 0)%Z then gl_fail GL_INVALID_VALUE issued else issued.

(** Whether GL carries out a recorded command. *)
Definition call_drawn (c : DrawArraysCall) : bool := (0 <=? call_count c)%Z.

(** ** The batch object and the machine around it *)

Definition nullptr : N := 0.

(** The data members of [Batch<T>], in declaration order.  [data] is the
    address held by the [T*] member. *)
Record Batch := {
  m_vao : N;
  m_vertex_data_vbo : N;
  m_draw_command_vbo : N;
  m_data_size : N;
  m_vertex_count : N;
  zIndex : Z;
  data : N
}.

Inductive LogEntry :=
| LoggerError (format : string) (args : list N)
| StdCerr (text : string).

Record Machine := {
  this : Batch;
  heap : gmap N Block;
  heap_top : N;
  gl : GL;
  log : list LogEntry
}.

Definition with_this (b : Batch) (m : Machine) : Machine :=
  {| this := b; heap := heap m; heap_top := heap_top m; gl := gl m;
     log := log m |}.

Definition with_gl (g : GL) (m : Machine) : Machine :=
  {| this := this m; heap := heap m; heap_top := heap_top m; gl := g;
     log := log m |}.

Definition with_heap (h : gmap N Block) (m : Machine) : Machine :=
  {| this := this m; heap := h; heap_top := heap_top m; gl := gl m;
     log := log m |}.

Definition set_vertex_count (n : N) (b : Batch) : Batch :=
  {| m_vao := m_vao b; m_vertex_data_vbo := m_vertex_data_vbo b;
     m_draw_command_vbo := m_draw_command_vbo b;
     m_data_size := m_data_size b; m_vertex_count := n;
     zIndex := zIndex b; data := data b |}.

(** Modelled from the spec: [AmoLogger_Error] is declared in [core.h],
    which is not part of the sources at hand; it reports an error and
    returns to its caller. *)
Definition AmoLogger_Error (format : string) (args : list N)
    (m : Machine) : Machine :=
  {| this := this m; heap := heap m; heap_top := heap_top m; gl := gl m;
     log := log m ++ [LoggerError format args] |}.

(** [std::cerr << text]. *)
Definition cerr (text : string) (m : Machine) : Machine :=
  {| this := this m; heap := heap m; heap_top := heap_top m; gl := gl m;
     log := log m ++ [StdCerr text] |}.

(** Modelled from the spec: [AmoMemory_Allocate] is declared in [core.h],
    which is not part of the sources at hand; it hands out a region of
    [size] bytes of undefined content at an address that is not null. *)
Definition AmoMemory_Allocate (size : N) (m : Machine) : N * Machine :=
  let p := N.succ (heap_top m) in
  (p,
   {| this := this m;
      heap := <[p := {| blk_size := size; blk_bytes := no_bytes |}]> (heap m);
      heap_top := p; gl := gl m; log := log m |}).

(** Modelled from the spec: [AmoMemory_Free] is declared in [core.h],
    which is not part of the sources at hand; it releases the region
    allocated at [p].  [None] when [p] is not such an address. *)
Definition AmoMemory_Free (p : N) (m : Machine) : option Machine :=
  match heap m !! p with
  | Some _ => Some (with_heap (delete p (heap m)) m)
  | None => None
  end.

(** The block a host pointer designates. *)
Definition deref (p : N) (m : Machine) : option Block :=
  if p =? nullptr then None else heap m !! p.

Inductive Abort := NoRoom | NegativeCount | NothingToDraw.

(** How control leaves a member function: it runs to its end, it takes
    one of the early [return]s, or it performs an invalid memory access
    (the machine is then the one at the moment of the access). *)
Inductive Outcome :=
| Completed (m : Machine)
| Aborted (why : Abort) (m : Machine)
| Fault (f : MemFault) (m : Machine).

Definition machine_of (o : Outcome) : Machine :=
  match o with
  | Completed m | Aborted _ m | Fault _ m => m
  end.

Section BatchT.

Context {T : Type} `{VertexLayout T}.

(** [World::chunk_radius], from [world/world.h]. *)
Variable chunk_radius : N.

(** [data[index] = vertex]. *)
Definition store_vertex (index : N) (vertex : T) (m : Machine)
    : Machine + MemFault :=
  let p := data (this m) in
  if p =? nullptr then inr NullPointer
  else match heap m !! p with
       | None => inr InvalidPointer
       | Some blk =>
           let off := size_mul index sizeofT in
           if blk_size blk <? off + sizeofT then inr OutOfBounds
           else inl (with_heap
                       (<[p := {| blk_size := blk_size blk;
                                  blk_bytes :=
                                    write_bytes off (encode vertex)
                                      (blk_bytes blk) |}]> (heap m)) m)
       end.

Definition configure_attribute (vao : N) (g : GL) (attribute : VertexAttribute)
    : GL :=
  let g1 := glEnableVertexArrayAttrib vao (attribute_slot attribute) g in
  let g2 := glVertexArrayAttribFormat vao (attribute_slot attribute)
              (element_amount attribute) (data_type attribute) GL_FALSE
              (offset attribute) g1 in
  glVertexArrayAttribBinding vao (attribute_slot attribute) 0 g2.

Definition init (vertex_attributes : list VertexAttribute) (m : Machine)
    : Outcome :=
  let size := wrap32 (size_mul sizeofT kMaxBatchSize) in
  let '(p, m1) := AmoMemory_Allocate size m in
  let '(vbo, g1) := glCreateBuffers (gl m1) in
  let '(cmd, g2) := glCreateBuffers g1 in
  let '(vao, g3) := glCreateVertexArrays g2 in
  let g4 := glNamedBufferStorage vbo size GL_DYNAMIC_STORAGE_BIT g3 in
  let g5 := glNamedBufferStorage cmd (chunk_radius * chunk_radius)
              GL_DYNAMIC_DRAW g4 in
  let g6 := glVertexArrayVertexBuffer vao 0 vbo 0 sizeof_Vertex3D g5 in
  let g7 := fold_left (configure_attribute vao) vertex_attributes g6 in
  Completed
    (with_gl g7
       (with_this
          {| m_vao := vao; m_vertex_data_vbo := vbo;
             m_draw_command_vbo := cmd; m_data_size := size;
             m_vertex_count := 0; zIndex := 0%Z; data := p |} m1)).

Definition hasRoom (b : Batch) : bool :=
  m_vertex_count b <=? kMaxBatchSize.

Definition Clear (m : Machine) : Machine :=
  with_this (set_vertex_count 0 (this m)) m.

(** [AddVertex(const T& vertex)]. *)
Definition AddVertex (vertex : T) (m : Machine) : Outcome :=
  let m1 := if data (this m) =? nullptr
            then AmoLogger_Error "Invalid batch.\n" [] m else m in
  if negb (hasRoom (this m1)) then
    Aborted NoRoom
      (AmoLogger_Error "Batch ran out of room. I have %d/%d vertices.\n"
         [m_vertex_count (this m1); kMaxBatchSize] m1)
  else if m_vertex_count (this m1) <? 0 then
    Aborted NegativeCount (AmoLogger_Error "Invalid vertex number.\n" [] m1)
  else
    match store_vertex (m_vertex_count (this m1)) vertex m1 with
    | inr f => Fault f m1
    | inl m2 =>
        Completed
          (with_this
             (set_vertex_count (wrap32 (m_vertex_count (this m2) + 1))
                (this m2)) m2)
    end.

(** [AddVertex(const T* vertex, uint32 vertex_amount)].  [vertex] is the
    array the pointer argument points into; a pointer that designates
    nothing is the empty array. *)
Definition AddVertex_array (vertex : list T) (vertex_amount : N)
    (m : Machine) : Outcome :=
  let m1 := if data (this m) =? nullptr
            then AmoLogger_Error "Invalid batch.\n" [] m else m in
  if negb (hasRoom (this m1)) then
    Aborted NoRoom
      (AmoLogger_Error "Batch ran out of room. I have %d/%d vertices.\n"
         [m_vertex_count (this m1); kMaxBatchSize] m1)
  else if m_vertex_count (this m1) <? 0 then
    Aborted NegativeCount (AmoLogger_Error "Invalid vertex number.\n" [] m1)
  else
    match glNamedBufferSubData (m_vertex_data_vbo (this m1))
            (size_mul (m_vertex_count (this m1)) sizeof_Vertex3D)
            (size_mul vertex_amount sizeof_Vertex3D)
            (Some (array_block vertex)) (gl m1) with
    | GLfault f => Fault f m1
    | GLdone g =>
        let m2 := with_gl g m1 in
        Completed
          (with_this
             (set_vertex_count
                (wrap32 (m_vertex_count (this m2) + vertex_amount))
                (this m2)) m2)
    end.

Definition Draw (m : Machine) : Outcome :=
  if m_vertex_count (this m) <=? 0 then
    Aborted NothingToDraw (cerr "No vertices to draw.\n" m)
  else
    let g1 := glBindVertexArray (m_vao (this m)) (gl m) in
    let g2 := glDrawArrays GL_TRIANGLES 0
                (to_GLsizei (m_vertex_count (this m))) g1 in
    let g3 := glBindVertexArray 0 g2 in
    Completed (Clear (with_gl g3 m)).

Definition ReloadData (m : Machine) : Outcome :=
  match glNamedBufferSubData (m_vertex_data_vbo (this m)) 0
          (m_data_size (this m)) (deref (data (this m)) m) (gl m) with
  | GLfault f => Fault f m
  | GLdone g => Completed (with_gl g m)
  end.

Definition Free (m : Machine) : Outcome :=
  if data (this m) =? nullptr then Completed m
  else
    match AmoMemory_Free (data (this m)) m with
    | None => Fault InvalidPointer m
    | Some m1 =>
        Completed
          (with_this
             {| m_vao := m_vao (this m1);
                m_vertex_data_vbo := m_vertex_data_vbo (this m1);
                m_draw_command_vbo := m_draw_command_vbo (this m1);
                m_data_size := 0;
                m_vertex_count := m_vertex_count (this m1);
                zIndex := zIndex (this m1); data := nullptr |} m1)
    end.

(** [operator<]. *)
Definition lt_Batch (a b : Batch) : bool := (zIndex a <? zIndex b)%Z.

(** *** Sequences of calls *)

Inductive Call :=
| CallAddVertex (vertex : T)
| CallAddVertexArray (vertex : list T) (vertex_amount : N)
| CallDraw
| CallReloadData
| CallClear
| CallFree.

Definition call (c : Call) (m : Machine) : Outcome :=
  match c with
  | CallAddVertex v => AddVertex v m
  | CallAddVertexArray a n => AddVertex_array a n m
  | CallDraw => Draw m
  | CallReloadData => ReloadData m
  | CallClear => Completed (Clear m)
  | CallFree => Free m
  end.

(** The caller goes on after a call that ended or returned early; an
    invalid memory access ends the run. *)
Fixpoint run (cs : list Call) (m : Machine) : Outcome :=
  match cs with
  | [] => Completed m
  | c :: cs' =>
      match call c m with
      | Completed m' | Aborted _ m' => run cs' m'
      | Fault f m' => Fault f m'
      end
  end.

End BatchT.

(** A batch object with static storage duration before [init] (the
    renderer's [chunk_batch]): every member is zero, nothing is allocated
    and no GL object exists. *)
Definition static_machine : Machine :=
  {| this := {| m_vao := 0; m_vertex_data_vbo := 0; m_draw_command_vbo := 0;
                m_data_size := 0; m_vertex_count := 0; zIndex := 0%Z;
                data := nullptr |};
     heap := ∅; heap_top := 0;
     gl := {| gl_limits := least_limits; gl_buffers := ∅; gl_vaos := ∅;
              gl_names := 0;
              gl_bound_vao := 0; gl_draws := []; gl_errors := [] |};
     log := [] |}.

(** The staging region is in place and the vertex buffer can take it:
    [data] designates a live block of [m_data_size] bytes, [m_data_size]
    is a [uint32] value, and [m_vertex_data_vbo] names a buffer object of
    [m_data_size] bytes that accepts [glNamedBufferSubData]. *)
Definition ready (m : Machine) : bool :=
  match deref (data (this m)) m,
        gl_buffers (gl m) !! m_vertex_data_vbo (this m) with
  | Some blk, Some buf =>
      (blk_size blk =? m_data_size (this m))
      && (m_data_size (this m) <? 2 ^ 32)
      && buffer_updatable buf
      && (buf_size buf =? m_data_size (this m))
  | _, _ => false
  end.

(** The bytes of record [i] of the staging array, and of the vertex
    buffer read with the same record size. *)
Definition staging_slot {T} `{VertexLayout T} (i : N) (m : Machine)
    : option (list (option byte)) :=
  match deref (data (this m)) m with
  | Some blk => Some (read_bytes (blk_bytes blk) (size_mul i sizeofT) sizeofT)
  | None => None
  end.

Definition gpu_slot {T} `{VertexLayout T} (i : N) (m : Machine)
    : option (list (option byte)) :=
  match gl_buffers (gl m) !! m_vertex_data_vbo (this m) with
  | Some buf => Some (read_bytes (buf_bytes buf) (size_mul i sizeofT) sizeofT)
  | None => None
  end.

(** [n] calls of the single-vertex [AddVertex], every one of which runs
    to its end. *)
Fixpoint AddVertex_each {T} `{VertexLayout T} (vs : list T) (m : Machine)
    : option Machine :=
  match vs with
  | [] => Some m
  | v :: vs' =>
      match AddVertex v m with
      | Completed m' => AddVertex_each vs' m'
      | _ => None
      end
  end.

(** The machine either [AddVertex] overload goes on with after its
    first [if]: the error is logged and the body continues. *)
Definition after_null_check (m : Machine) : Machine :=
  if data (this m) =? nullptr
  then AmoLogger_Error "Invalid batch.\n" [] m else m.

(** The buffer objects of [g'] are those of [g], with the same stores,
    and they hold the same bytes except for buffer [name] in the [len]
    bytes from [off] on. *)
Definition buffers_differ_only_in (name off len : N) (g g' : GL) : Prop :=
  forall n,
    match gl_buffers g !! n, gl_buffers g' !! n with
    | Some b, Some b' =>
        buf_size b' = buf_size b
        /\ buf_flags b' = buf_flags b
        /\ buf_immutable b' = buf_immutable b
        /\ forall a, n <> name \/ a < off \/ off + len <= a ->
                     buf_bytes b' a = buf_bytes b a
    | None, None => True
    | _, _ => False
    end.

(** ** Concrete machines used to exercise the model *)

Definition sample_vertex (k : Z) : Vertex3D :=
  {| pos_coord := {| ix := k; iy := (- k)%Z; iz := (k + 1)%Z |};
     tex_coord := {| fx := 1065353216; fy := 0; fz := Z.to_N k |};
     normal := 1073741824 |}.

Definition sample_attributes : list VertexAttribute :=
  [ {| attribute_slot := 0; element_amount := 3; data_type := GL_INT;
       offset := 0 |};
    {| attribute_slot := 1; element_amount := 3; data_type := GL_FLOAT;
       offset := 12 |};
    {| attribute_slot := 2; element_amount := 1; data_type := GL_FLOAT;
       offset := 24 |} ].

(** A [Batch<Vertex3D>] with static storage after [init], with a chunk
    radius of 16. *)
Definition initialized_machine : Machine :=
  machine_of (init (T := Vertex3D) 16 sample_attributes static_machine).

(** ... and after three single-vertex [AddVertex] calls. *)
Definition loaded_machine : Machine :=
  machine_of
    (run [CallAddVertex (sample_vertex 1); CallAddVertex (sample_vertex 2);
          CallAddVertex (sample_vertex 3)] initialized_machine).

(** ... and after [Free]. *)
Definition freed_machine : Machine := machine_of (Free loaded_machine).

(** The initialized batch with its count moved to the capacity. *)
Definition full_machine : Machine :=
  with_this (set_vertex_count kMaxBatchSize (this initialized_machine))
    initialized_machine.

(** ** Notions used to state further properties of the member functions *)

(** The allocator has handed out no address above [heap_top]. *)
Definition heap_bounded (m : Machine) : Prop :=
  forall p, is_Some (heap m !! p) -> p <= heap_top m.

(** The format [init] gives the attribute slot of [a]. *)
Definition attribute_format (a : VertexAttribute) : AttribFormat :=
  {| fmt_size := element_amount a; fmt_type := data_type a;
     fmt_normalized := GL_FALSE; fmt_relativeoffset := offset a |}.

(** The calls of the single-vertex path: every member function but the
    bulk [AddVertex] and [Free]. *)
Definition on_single_path {T} (c : Call (T := T)) : bool :=
  match c with
  | CallAddVertexArray _ _ | CallFree => false
  | _ => true
  end.

(** A vertex type smaller than [Vertex3D]: a bare position. *)
Definition encode_ivec3 (v : ivec3) : list byte :=
  le32 (int32_bits (ix v)) ++ le32 (int32_bits (iy v)) ++
  le32 (int32_bits (iz v)).

Definition ivec3_layout : VertexLayout ivec3 := {|
  sizeofT := 12;
  encode := encode_ivec3;
  encode_length := fun v => eq_refl
|}.

(** The initialized batch after a bulk call of 3000000000 vertices. *)
Definition huge_machine : Machine :=
  machine_of
    (AddVertex_array (T := Vertex3D) [] 3000000000 initialized_machine).

(** The initialized batch after a bulk call of one vertex too many. *)
Definition overfull_machine : Machine :=
  machine_of
    (AddVertex_array (T := Vertex3D) [] (kMaxBatchSize + 1)
       initialized_machine).

(** A batch that differs from the uninitialized one in its sort key. *)
Definition batch_with_key (z : Z) : Batch :=
  {| m_vao := 0; m_vertex_data_vbo := 0; m_draw_command_vbo := 0;
     m_data_size := 0; m_vertex_count := 0; zIndex := z; data := nullptr |}.

(** [g'] comes from [g] by calls that configure vertex arrays: the
    limits and the buffers are those of [g], no error and no vertex
    array of [g] is lost. *)
Definition gl_extends (g g' : GL) : Prop :=
  gl_limits g' = gl_limits g
  /\ gl_buffers g' = gl_buffers g
  /\ (forall e, In e (gl_errors g) -> In e (gl_errors g'))
  /\ (forall n, is_Some (gl_vaos g !! n) -> is_Some (gl_vaos g' !! n)).

(** GL accepts the three calls [init] makes for the attribute [a]: the
    slot is below [GL_MAX_VERTEX_ATTRIBS] and the format (count, type,
    not normalized, offset) raises no error. *)
Definition attribute_accepted (lim : GLlimits) (a : VertexAttribute) : bool :=
  (attribute_slot a <? max_vertex_attribs lim)
  && bool_decide
       (format_error lim (attribute_slot a) (element_amount a) (data_type a)
          GL_FALSE (offset a) = None).

(** The limits admit the buffer binding [init] sets up: binding point 0
    and a stride of [sizeof(Vertex3D)]. *)
Definition binding_accepted (lim : GLlimits) : bool :=
  (0 <? max_vertex_attrib_bindings lim)
  && (sizeof_Vertex3D <=? max_vertex_attrib_stride lim).

(** ** Byte memory: reading back what was written *)

Lemma write_bytes_inside off l mem a :
  off <= a -> a < off + N.of_nat (length l) ->
  write_bytes off l mem a = nth_error l (N.to_nat (a - off)).
Proof.
  intros Hlo Hhi. unfold write_bytes.
  apply N.leb_le in Hlo. apply N.ltb_lt in Hhi.
  now rewrite Hlo, Hhi.
Qed.

Lemma write_bytes_outside off l mem a :
  a < off \/ off + N.of_nat (length l) <= a ->
  write_bytes off l mem a = mem a.
Proof.
  intros Hout. unfold write_bytes.
  destruct (off <=? a) eqn:Hlo; [|reflexivity].
  destruct (a <? off + N.of_nat (length l)) eqn:Hhi; [|reflexivity].
  apply N.leb_le in Hlo. apply N.ltb_lt in Hhi. lia.
Qed.

Lemma copy_bytes_inside off len src mem a :
  off <= a -> a < off + len -> copy_bytes off len src mem a = src (a - off).
Proof.
  intros Hlo Hhi. unfold copy_bytes.
  apply N.leb_le in Hlo. apply N.ltb_lt in Hhi.
  now rewrite Hlo, Hhi.
Qed.

Lemma copy_bytes_outside off len src mem a :
  a < off \/ off + len <= a -> copy_bytes off len src mem a = mem a.
Proof.
  intros Hout. unfold copy_bytes.
  destruct (off <=? a) eqn:Hlo; [|reflexivity].
  destruct (a <? off + len) eqn:Hhi; [|reflexivity].
  apply N.leb_le in Hlo. apply N.ltb_lt in Hhi. lia.
Qed.

Lemma read_bytes_ext mem mem' off len :
  (forall a, off <= a -> a < off + len -> mem a = mem' a) ->
  read_bytes mem off len = read_bytes mem' off len.
Proof.
  intros Hext. unfold read_bytes. apply map_ext_in.
  intros i Hi. apply in_seq in Hi. apply Hext; lia.
Qed.

Lemma read_bytes_written off l mem :
  read_bytes (write_bytes off l mem) off (N.of_nat (length l)) = map Some l.
Proof.
  unfold read_bytes. rewrite Nat2N.id.
  apply nth_error_ext. intros i.
  rewrite !nth_error_map.
  destruct (Nat.lt_ge_cases i (length l)) as [Hlt|Hge].
  - rewrite nth_error_seq.
    destruct (Nat.ltb_spec i (length l)) as [_|?]; [|lia]. simpl.
    rewrite write_bytes_inside by lia.
    replace (N.to_nat (off + N.of_nat i - off)) with i by lia.
    destruct (nth_error l i) eqn:Hn; [reflexivity|].
    apply nth_error_None in Hn. lia.
  - rewrite (proj2 (nth_error_None _ _)) by (rewrite length_seq; lia).
    now rewrite (proj2 (nth_error_None l i)) by lia.
Qed.

(** ** Early returns *)

Section Returns.

Context {T : Type} `{VertexLayout T}.

Lemma count_never_negative (n : N) : (n <? 0) = false.
Proof. apply N.ltb_ge, N.le_0_l. Qed.

Lemma AddVertex_exits (vertex : T) (m : Machine) :
  (exists m', AddVertex vertex m = Completed m')
  \/ (exists m', AddVertex vertex m = Aborted NoRoom m')
  \/ (exists f m', AddVertex vertex m = Fault f m').
Proof.
  unfold AddVertex.
  destruct (negb (hasRoom _)); [right; left; eauto|].
  rewrite count_never_negative.
  destruct (store_vertex _ _ _); [left|right; right]; eauto.
Qed.

Lemma AddVertex_array_exits (vertex : list T) (amount : N) (m : Machine) :
  (exists m', AddVertex_array vertex amount m = Completed m')
  \/ (exists m', AddVertex_array vertex amount m = Aborted NoRoom m')
  \/ (exists f m', AddVertex_array vertex amount m = Fault f m').
Proof.
  unfold AddVertex_array.
  destruct (negb (hasRoom _)); [right; left; eauto|].
  rewrite count_never_negative.
  destruct (glNamedBufferSubData _ _ _ _ _); [left|right; right]; eauto.
Qed.

(** C10. In both [AddVertex] overloads the branch guarded by
    [m_vertex_count < 0] is dead code: [m_vertex_count] is unsigned, so
    whatever the argument and whatever the state of the batch, no call
    leaves through the early return that reports an invalid vertex
    number. *)
Theorem AddVertex_never_NegativeCount :
  forall (vertex : T) (array : list T) (vertex_amount : N) (m m' : Machine),
    AddVertex vertex m <> Aborted NegativeCount m'
    /\ AddVertex_array array vertex_amount m <> Aborted NegativeCount m'.
Proof.
  intros vertex array amount m m'. split; intros Hexit.
  - destruct (AddVertex_exits vertex m)
      as [[m1 E]|[[m1 E]|(f & m1 & E)]]; congruence.
  - destruct (AddVertex_array_exits array amount m)
      as [[m1 E]|[[m1 E]|(f & m1 & E)]]; congruence.
Qed.

(** The message of the dead branch is never logged either. *)
Lemma AddVertex_log_without_NegativeCount (vertex : T) (m : Machine) :
  ~ In (LoggerError "Invalid vertex number.\n" []) (log m) ->
  ~ In (LoggerError "Invalid vertex number.\n" [])
      (log (machine_of (AddVertex vertex m))).
Proof.
  intros Hm. unfold AddVertex.
  assert (Hm1 : ~ In (LoggerError "Invalid vertex number.\n" [])
                  (log (if data (this m) =? nullptr
                        then AmoLogger_Error "Invalid batch.\n" [] m else m))).
  { destruct (data (this m) =? nullptr); simpl; [|exact Hm].
    rewrite in_app_iff. intros [Hin|[Hin|[]]]; [tauto|discriminate]. }
  set (m1 := if data (this m) =? nullptr then _ else m) in *.
  destruct (negb (hasRoom (this m1))); simpl.
  - rewrite in_app_iff. intros [Hin|[Hin|[]]]; [tauto|discriminate].
  - rewrite count_never_negative.
    destruct (store_vertex _ _ _) as [m2|f] eqn:Hst; simpl; [|exact Hm1].
    unfold store_vertex in Hst.
    destruct (data (this m1) =? nullptr); [discriminate|].
    destruct (heap m1 !! data (this m1)); [|discriminate].
    destruct (blk_size _ <? _); [discriminate|].
    injection Hst as <-. exact Hm1.
Qed.

End Returns.

(** ** [Draw] *)

Lemma glBindVertexArray_bound (array : N) (g : GL) :
  is_Some (gl_vaos g !! array) ->
  gl_bound_vao (glBindVertexArray array g) = array.
Proof.
  intros Hvao. unfold glBindVertexArray.
  rewrite (bool_decide_eq_true_2 _ Hvao), orb_true_r. reflexivity.
Qed.

Lemma glBindVertexArray_frame (array : N) (g : GL) :
  gl_buffers (glBindVertexArray array g) = gl_buffers g
  /\ gl_vaos (glBindVertexArray array g) = gl_vaos g
  /\ gl_draws (glBindVertexArray array g) = gl_draws g.
Proof. unfold glBindVertexArray. destruct (_ || _); auto. Qed.

(** C8. On a batch with [m_vertex_count == 0], [Draw] writes its
    diagnostic to [std::cerr] and returns early; nothing else happens:
    no draw command is issued, and the members of the batch (the count
    among them), the heap with the staging buffer, and the whole GL
    state with the buffers are what they were. *)
Theorem Draw_empty_is_noop (m : Machine) :
  m_vertex_count (this m) = 0 ->
  exists m',
    Draw m = Aborted NothingToDraw m'
    /\ log m' = log m ++ [StdCerr "No vertices to draw.\n"]
    /\ this m' = this m
    /\ heap m' = heap m
    /\ gl m' = gl m.
Proof.
  intros Hcount. unfold Draw. rewrite Hcount. simpl.
  eexists. split; [reflexivity|]. simpl. auto.
Qed.

Lemma Draw_empty_is_noop_witness :
  exists m',
    Draw initialized_machine = Aborted NothingToDraw m'
    /\ log m' = log initialized_machine ++ [StdCerr "No vertices to draw.\n"]
    /\ this m' = this initialized_machine
    /\ heap m' = heap initialized_machine
    /\ gl m' = gl initialized_machine.
Proof. apply (Draw_empty_is_noop initialized_machine). reflexivity. Defined.

(** The empty case, as far as the heap and the GL state go. *)
Lemma Draw_nothing_pending (m : Machine) :
  m_vertex_count (this m) = 0 ->
  exists m', Draw m = Aborted NothingToDraw m'
             /\ heap m' = heap m /\ gl m' = gl m.
Proof.
  intros Hcount. unfold Draw. rewrite Hcount. simpl.
  eexists. split; [reflexivity|]. simpl. auto.
Qed.

Lemma glDrawArrays_frame (mode : N) (first count : Z) (g : GL) :
  gl_buffers (glDrawArrays mode first count g) = gl_buffers g
  /\ gl_vaos (glDrawArrays mode first count g) = gl_vaos g
  /\ gl_bound_vao (glDrawArrays mode first count g) = gl_bound_vao g
  /\ gl_draws (glDrawArrays mode first count g) =
       gl_draws g ++
       [ {| call_vao := gl_bound_vao g; call_mode := mode;
            call_first := first; call_count := count |} ].
Proof. unfold glDrawArrays. destruct (count <? 0)%Z; auto. Qed.

Lemma to_GLsizei_small (n : N) : n < 2 ^ 31 -> to_GLsizei n = Z.of_N n.
Proof.
  intros Hn. unfold to_GLsizei.
  change (2 ^ 31) with 2147483648 in Hn.
  rewrite Z.mod_small by lia.
  destruct (Z.ltb_spec (Z.of_N n) (2 ^ 31)); lia.
Qed.

(** [Draw] with vertices pending, call by call. *)
Lemma Draw_pending (m : Machine) :
  0 < m_vertex_count (this m) ->
  exists g,
    Draw m = Completed (Clear (with_gl g m))
    /\ gl_draws g =
         gl_draws (gl m) ++
         [ {| call_vao := gl_bound_vao
                            (glBindVertexArray (m_vao (this m)) (gl m));
              call_mode := GL_TRIANGLES; call_first := 0;
              call_count := to_GLsizei (m_vertex_count (this m)) |} ]
    /\ gl_buffers g = gl_buffers (gl m)
    /\ gl_vaos g = gl_vaos (gl m)
    /\ gl_bound_vao g = 0.
Proof.
  intros Hcount. unfold Draw.
  destruct (m_vertex_count (this m) <=? 0) eqn:Hle.
  { apply N.leb_le in Hle. lia. }
  eexists. split; [reflexivity|].
  destruct (glBindVertexArray_frame (m_vao (this m)) (gl m))
    as (Hbuf & Hvaos & Hdraws).
  set (g1 := glBindVertexArray (m_vao (this m)) (gl m)) in *.
  destruct (glDrawArrays_frame GL_TRIANGLES 0
              (to_GLsizei (m_vertex_count (this m))) g1)
    as (Hbuf2 & Hvaos2 & _ & Hdraws2).
  set (g2 := glDrawArrays _ _ _ g1) in *.
  destruct (glBindVertexArray_frame 0 g2) as (Hbuf3 & Hvaos3 & Hdraws3).
  rewrite Hdraws3, Hdraws2, Hdraws, Hbuf3, Hbuf2, Hbuf, Hvaos3, Hvaos2, Hvaos.
  repeat split.
Qed.

(** Within the range of [GLsizei].  On a batch with
    [0 < m_vertex_count < 2^31], [Draw] runs to its end and issues
    exactly one draw command, a [GL_TRIANGLES] draw of the vertices from
    0 up to the count, with the batch's vertex array bound when that
    array exists; afterwards [m_vertex_count == 0].  The staging buffer
    (the heap and the [data] member) and the GL buffers are not
    touched. *)
Lemma Draw_issues_and_resets (m : Machine) :
  0 < m_vertex_count (this m) ->
  m_vertex_count (this m) < 2 ^ 31 ->
  exists m' vao,
    Draw m = Completed m'
    /\ gl_draws (gl m') =
         gl_draws (gl m) ++
         [ {| call_vao := vao; call_mode := GL_TRIANGLES; call_first := 0;
              call_count := Z.of_N (m_vertex_count (this m)) |} ]
    /\ (is_Some (gl_vaos (gl m) !! m_vao (this m)) -> vao = m_vao (this m))
    /\ m_vertex_count (this m') = 0
    /\ heap m' = heap m
    /\ data (this m') = data (this m)
    /\ m_data_size (this m') = m_data_size (this m)
    /\ gl_buffers (gl m') = gl_buffers (gl m).
Proof.
  intros Hcount Hsmall.
  destruct (Draw_pending m Hcount) as (g & Hdraw & Hdraws & Hbuf & _).
  rewrite to_GLsizei_small in Hdraws by exact Hsmall.
  eexists. eexists. split; [exact Hdraw|]. simpl.
  split; [exact Hdraws|].
  split; [apply glBindVertexArray_bound|]. auto.
Qed.

Lemma Draw_issues_and_resets_witness :
  exists m' vao,
    Draw loaded_machine = Completed m'
    /\ gl_draws (gl m') =
         gl_draws (gl loaded_machine) ++
         [ {| call_vao := vao; call_mode := GL_TRIANGLES; call_first := 0;
              call_count := Z.of_N (m_vertex_count (this loaded_machine)) |} ]
    /\ (is_Some (gl_vaos (gl loaded_machine) !! m_vao (this loaded_machine))
        -> vao = m_vao (this loaded_machine))
    /\ m_vertex_count (this m') = 0
    /\ heap m' = heap loaded_machine
    /\ data (this m') = data (this loaded_machine)
    /\ m_data_size (this m') = m_data_size (this loaded_machine)
    /\ gl_buffers (gl m') = gl_buffers (gl loaded_machine).
Proof.
  apply (Draw_issues_and_resets loaded_machine); reflexivity.
Defined.

(** C4, evaluated.  [huge_machine] is the initialized batch after one
    bulk [AddVertex] of 3000000000 vertices, whatever array the pointer
    designates; the call is not refused (the defect of C1).  [Draw] then
    hands the count to [glDrawArrays] as a [GLsizei]: the command
    carries -1294967296, GL raises [GL_INVALID_VALUE] and draws nothing,
    and the count is reset all the same.  No draw of the vertices from 0
    up to the count is issued. *)
Theorem Draw_count_beyond_GLsizei :
  (forall array : list Vertex3D,
     AddVertex_array array 3000000000 initialized_machine =
       Completed huge_machine)
  /\ ready huge_machine = true
  /\ m_vertex_count (this huge_machine) = 3000000000
  /\ exists m',
       Draw huge_machine = Completed m'
       /\ gl_draws (gl m') =
            gl_draws (gl huge_machine) ++
            [ {| call_vao := m_vao (this huge_machine);
                 call_mode := GL_TRIANGLES; call_first := 0;
                 call_count := (-1294967296)%Z |} ]
       /\ forallb call_drawn (gl_draws (gl m')) = false
       /\ gl_errors (gl m') =
            gl_errors (gl huge_machine) ++ [GL_INVALID_VALUE]
       /\ m_vertex_count (this m') = 0.
Proof.
  split; [intros array; vm_compute; reflexivity|].
  split; [vm_compute; reflexivity|].
  split; [vm_compute; reflexivity|].
  eexists. split; [vm_compute; reflexivity|].
  split; [vm_compute; reflexivity|].
  split; [vm_compute; reflexivity|].
  split; vm_compute; reflexivity.
Qed.

(** The count the draw command of [loaded_machine] carries. *)
Example Draw_loaded_machine :
  map call_count (gl_draws (gl (machine_of (Draw loaded_machine)))) = [3%Z]
  /\ map call_vao (gl_draws (gl (machine_of (Draw loaded_machine)))) = [3]
  /\ m_vertex_count (this (machine_of (Draw loaded_machine))) = 0.
Proof. vm_compute. auto. Qed.

(** ** [Free] *)

(** C9. On a batch whose [data] is not null (it designates the staging
    allocation), [Free] releases that allocation, sets [data] to null
    and [m_data_size] to zero, and leaves [m_vertex_count], [zIndex] and
    the three GL handles as they were, as well as the GL state itself.
    A second [Free] on the result changes nothing. *)
Theorem Free_releases_staging_only (m : Machine) :
  data (this m) <> nullptr ->
  is_Some (heap m !! data (this m)) ->
  exists m',
    Free m = Completed m'
    /\ heap m' = delete (data (this m)) (heap m)
    /\ data (this m') = nullptr
    /\ m_data_size (this m') = 0
    /\ m_vertex_count (this m') = m_vertex_count (this m)
    /\ zIndex (this m') = zIndex (this m)
    /\ m_vao (this m') = m_vao (this m)
    /\ m_vertex_data_vbo (this m') = m_vertex_data_vbo (this m)
    /\ m_draw_command_vbo (this m') = m_draw_command_vbo (this m)
    /\ gl m' = gl m
    /\ log m' = log m
    /\ Free m' = Completed m'.
Proof.
  intros Hdata [blk Hblk]. unfold Free, AmoMemory_Free.
  destruct (data (this m) =? nullptr) eqn:Hnull.
  { apply N.eqb_eq in Hnull. contradiction. }
  rewrite Hblk. eexists. split; [reflexivity|]. simpl.
  repeat split; reflexivity.
Qed.

Lemma Free_releases_staging_only_witness :
  exists m',
    Free loaded_machine = Completed m'
    /\ heap m' = delete (data (this loaded_machine)) (heap loaded_machine)
    /\ data (this m') = nullptr
    /\ m_data_size (this m') = 0
    /\ m_vertex_count (this m') = m_vertex_count (this loaded_machine)
    /\ zIndex (this m') = zIndex (this loaded_machine)
    /\ m_vao (this m') = m_vao (this loaded_machine)
    /\ m_vertex_data_vbo (this m') = m_vertex_data_vbo (this loaded_machine)
    /\ m_draw_command_vbo (this m') = m_draw_command_vbo (this loaded_machine)
    /\ gl m' = gl loaded_machine
    /\ log m' = log loaded_machine
    /\ Free m' = Completed m'.
Proof.
  apply (Free_releases_staging_only loaded_machine).
  - vm_compute. discriminate.
  - vm_compute. eexists. reflexivity.
Defined.

(** [Free] on a batch whose [data] is already null is the identity. *)
Lemma Free_null (m : Machine) :
  data (this m) = nullptr -> Free m = Completed m.
Proof. intros Hnull. unfold Free. now rewrite Hnull. Qed.

Example Free_loaded_machine :
  heap freed_machine = ∅
  /\ m_vertex_count (this freed_machine) = 3
  /\ Free freed_machine = Completed freed_machine.
Proof.
  split; [|split].
  - apply map_eq. intros a. vm_compute.
    destruct (decide (a = 1)) as [->|Hne].
    + reflexivity.
    + reflexivity.
  - reflexivity.
  - apply Free_null. reflexivity.
Qed.

(** ** What a completed [AddVertex] did *)

Lemma wrap32_small (n : N) : n < 2 ^ 32 -> wrap32 n = n.
Proof. apply N.mod_small. Qed.

Lemma wrap64_small (n : N) : n < 2 ^ 64 -> wrap64 n = n.
Proof. apply N.mod_small. Qed.

Lemma hasRoom_true (b : Batch) :
  hasRoom b = true <-> m_vertex_count b <= kMaxBatchSize.
Proof. apply N.leb_le. Qed.

Section Accumulate.

Context {T : Type} `{VertexLayout T}.

Lemma store_vertex_inl (index : N) (vertex : T) (m m2 : Machine) :
  store_vertex index vertex m = inl m2 ->
  exists blk,
    data (this m) <> nullptr
    /\ heap m !! data (this m) = Some blk
    /\ size_mul index sizeofT + sizeofT <= blk_size blk
    /\ m2 = with_heap
              (<[data (this m) :=
                   {| blk_size := blk_size blk;
                      blk_bytes :=
                        write_bytes (size_mul index sizeofT) (encode vertex)
                          (blk_bytes blk) |}]> (heap m)) m.
Proof.
  unfold store_vertex. intros Hst.
  destruct (data (this m) =? nullptr) eqn:Hnull; [discriminate|].
  destruct (heap m !! data (this m)) as [blk|] eqn:Hblk; [|discriminate].
  destruct (blk_size blk <? _) eqn:Hfit; [discriminate|].
  injection Hst as <-. exists blk.
  apply N.eqb_neq in Hnull. apply N.ltb_ge in Hfit. auto.
Qed.

(** A single-vertex [AddVertex] that runs to its end found [data] not
    null and the count at most [kMaxBatchSize]; it stored the vertex in
    the staging block at record [m_vertex_count] and added one to the
    count. *)
Lemma AddVertex_Completed (vertex : T) (m m' : Machine) :
  AddVertex vertex m = Completed m' ->
  exists blk,
    data (this m) <> nullptr
    /\ m_vertex_count (this m) <= kMaxBatchSize
    /\ heap m !! data (this m) = Some blk
    /\ size_mul (m_vertex_count (this m)) sizeofT + sizeofT <= blk_size blk
    /\ m' = with_this
              (set_vertex_count (m_vertex_count (this m) + 1) (this m))
              (with_heap
                 (<[data (this m) :=
                      {| blk_size := blk_size blk;
                         blk_bytes :=
                           write_bytes
                             (size_mul (m_vertex_count (this m)) sizeofT)
                             (encode vertex) (blk_bytes blk) |}]> (heap m))
                 m).
Proof.
  unfold AddVertex. intros Hadd.
  destruct (data (this m) =? nullptr) eqn:Hnull.
  - (* the error is logged and the body goes on to the store *)
    simpl in Hadd.
    destruct (negb (hasRoom (this m))); [discriminate|].
    rewrite count_never_negative in Hadd.
    unfold store_vertex in Hadd. simpl in Hadd.
    rewrite Hnull in Hadd. discriminate.
  - destruct (negb (hasRoom (this m))) eqn:Hroom; [discriminate|].
    rewrite count_never_negative in Hadd.
    destruct (store_vertex _ _ _) as [m2|f] eqn:Hst; [|discriminate].
    apply store_vertex_inl in Hst as (blk & Hdata & Hblk & Hfit & ->).
    apply negb_false_iff, hasRoom_true in Hroom.
    injection Hadd as <-. exists blk. simpl.
    rewrite wrap32_small by (unfold kMaxBatchSize in Hroom; lia).
    auto.
Qed.

Lemma AddVertex_array_Completed (vertex : list T) (amount : N)
    (m m' : Machine) :
  AddVertex_array vertex amount m = Completed m' ->
  exists g,
    m_vertex_count (this m) <= kMaxBatchSize
    /\ glNamedBufferSubData (m_vertex_data_vbo (this m))
         (size_mul (m_vertex_count (this m)) sizeof_Vertex3D)
         (size_mul amount sizeof_Vertex3D)
         (Some (array_block vertex)) (gl m) = GLdone g
    /\ m' = with_this
              (set_vertex_count (wrap32 (m_vertex_count (this m) + amount))
                 (this m))
              (with_gl g (after_null_check m)).
Proof.
  unfold AddVertex_array. fold (after_null_check m).
  assert (Hthis : this (after_null_check m) = this m)
    by (unfold after_null_check; destruct (_ =? _); reflexivity).
  assert (Hgl : gl (after_null_check m) = gl m)
    by (unfold after_null_check; destruct (_ =? _); reflexivity).
  rewrite Hthis, Hgl. intros Hadd.
  destruct (negb (hasRoom (this m))) eqn:Hroom; [discriminate|].
  rewrite count_never_negative in Hadd.
  destruct (glNamedBufferSubData _ _ _ _ _) as [g|f]; [|discriminate].
  apply negb_false_iff, hasRoom_true in Hroom.
  injection Hadd as <-. exists g. simpl. rewrite Hthis. auto.
Qed.

(** What an accepted or rejected [glNamedBufferSubData] leaves behind. *)
Lemma glNamedBufferSubData_GLdone (buffer off size : N) (src : option Block)
    (g g' : GL) :
  glNamedBufferSubData buffer off size src g = GLdone g' ->
  (exists e, g' = gl_fail e g)
  \/ (size = 0 /\ g' = g)
  \/ (exists b blk,
        src = Some blk
        /\ gl_buffers g !! buffer = Some b
        /\ off + size <= buf_size b
        /\ size <= blk_size blk
        /\ g' = gl_set_buffer buffer
                  {| buf_immutable := buf_immutable b;
                     buf_flags := buf_flags b;
                     buf_size := buf_size b;
                     buf_bytes :=
                       copy_bytes off size (blk_bytes blk) (buf_bytes b) |} g).
Proof.
  unfold glNamedBufferSubData. intros Hsub.
  destruct (gl_buffers g !! buffer) as [b|] eqn:Hb.
  2:{ injection Hsub as <-. left. eauto. }
  destruct (negb (buffer_updatable b)).
  { injection Hsub as <-. left. eauto. }
  destruct (buf_size b <? off + size) eqn:Hrange.
  { injection Hsub as <-. left. eauto. }
  destruct (size =? 0) eqn:Hzero.
  { injection Hsub as <-. apply N.eqb_eq in Hzero. right; left. auto. }
  destruct src as [blk|]; [|discriminate].
  destruct (blk_size blk <? size) eqn:Hsrc; [discriminate|].
  injection Hsub as <-. right; right. exists b, blk.
  apply N.ltb_ge in Hrange. apply N.ltb_ge in Hsrc. auto.
Qed.

Lemma buffers_differ_only_in_same (name off len : N) (g g' : GL) :
  gl_buffers g' = gl_buffers g -> buffers_differ_only_in name off len g g'.
Proof.
  intros Hsame n. rewrite Hsame. destruct (gl_buffers g !! n); auto.
Qed.

Lemma glNamedBufferSubData_frame (buffer off size : N) (src : option Block)
    (g g' : GL) :
  glNamedBufferSubData buffer off size src g = GLdone g' ->
  buffers_differ_only_in buffer off size g g'
  /\ gl_vaos g' = gl_vaos g
  /\ gl_draws g' = gl_draws g
  /\ gl_bound_vao g' = gl_bound_vao g.
Proof.
  intros Hsub.
  apply glNamedBufferSubData_GLdone in Hsub
    as [[e ->]|[[_ ->]|(b & blk & _ & Hb & _ & _ & ->)]].
  - split; [now apply buffers_differ_only_in_same|auto].
  - split; [now apply buffers_differ_only_in_same|auto].
  - split; [|auto]. intros n. simpl.
    destruct (decide (n = buffer)) as [->|Hne].
    + rewrite Hb, lookup_insert_eq. simpl. repeat split.
      intros a [Hn|Hout]; [contradiction|].
      now apply copy_bytes_outside.
    + rewrite lookup_insert_ne by auto.
      destruct (gl_buffers g !! n); auto.
Qed.

Lemma AddVertex_count_succ (vertex : T) (m m' : Machine) :
  AddVertex vertex m = Completed m' ->
  m_vertex_count (this m') = m_vertex_count (this m) + 1.
Proof.
  intros Hadd.
  apply AddVertex_Completed in Hadd as (blk & _ & _ & _ & _ & ->).
  reflexivity.
Qed.

(** The bulk overload adds in [uint32]. *)
Lemma AddVertex_array_count_mod (array : list T) (vertex_amount : N)
    (k k' : Machine) :
  AddVertex_array array vertex_amount k = Completed k' ->
  m_vertex_count (this k') = wrap32 (m_vertex_count (this k) + vertex_amount).
Proof.
  intros Hadd.
  apply AddVertex_array_Completed in Hadd as (g & _ & _ & ->). reflexivity.
Qed.

(** The arithmetic of the two increments.  A single-vertex [AddVertex]
    that runs to its end adds exactly one to [m_vertex_count]; the sum
    the bulk overload assigns is the mathematical one as long as it is a
    [uint32] value. *)
Lemma AddVertex_count_step :
  forall (vertex : T) (m m' : Machine)
         (array : list T) (vertex_amount : N) (k k' : Machine),
    (AddVertex vertex m = Completed m' ->
     m_vertex_count (this m') = m_vertex_count (this m) + 1)
    /\ (AddVertex_array array vertex_amount k = Completed k' ->
        m_vertex_count (this k) + vertex_amount < 2 ^ 32 ->
        m_vertex_count (this k') = m_vertex_count (this k) + vertex_amount).
Proof.
  intros vertex m m' array amount k k'. split.
  - apply AddVertex_count_succ.
  - intros Hadd Hfit.
    rewrite (AddVertex_array_count_mod _ _ _ _ Hadd).
    now apply wrap32_small.
Qed.


End Accumulate.

Lemma AddVertex_count_step_witness :
  m_vertex_count
    (this (machine_of (AddVertex (sample_vertex 1) initialized_machine))) =
    m_vertex_count (this initialized_machine) + 1
  /\ m_vertex_count
       (this (machine_of
                (AddVertex_array [sample_vertex 4; sample_vertex 5] 2
                   loaded_machine))) =
       m_vertex_count (this loaded_machine) + 2.
Proof.
  destruct (AddVertex_count_step
              (sample_vertex 1) initialized_machine
              (machine_of (AddVertex (sample_vertex 1) initialized_machine))
              [sample_vertex 4; sample_vertex 5] 2 loaded_machine
              (machine_of
                 (AddVertex_array [sample_vertex 4; sample_vertex 5] 2
                    loaded_machine)))
    as [Hsingle Hbulk].
  split.
  - apply Hsingle. vm_compute. reflexivity.
  - apply Hbulk.
    + vm_compute. reflexivity.
    + vm_compute. reflexivity.
Defined.

(** C3, evaluated.  The bulk overload on [loaded_machine] (initialized,
    three vertices pending) with [vertex_amount = 4294967295], whatever
    array the pointer designates.  The call is not refused: [hasRoom]
    looks at the count only, and nothing compares [vertex_amount] with
    the room left (the defect of C1).  It runs to its end, and the
    count, 3 before the call, is 2 after it: the sum is taken in
    [uint32].  The count has not increased by [vertex_amount]. *)
Theorem AddVertex_array_count_wraps :
  ready loaded_machine = true
  /\ m_vertex_count (this loaded_machine) = 3
  /\ forall array : list Vertex3D,
       exists k',
         AddVertex_array array 4294967295 loaded_machine = Completed k'
         /\ m_vertex_count (this k') = 2
         /\ m_vertex_count (this k') <>
              m_vertex_count (this loaded_machine) + 4294967295.
Proof.
  split; [vm_compute; reflexivity|].
  split; [vm_compute; reflexivity|].
  intros array. eexists. split; [vm_compute; reflexivity|].
  split; [reflexivity|]. vm_compute. discriminate.
Qed.


(** What the bulk call of the witness put into the vertex buffer: the
    image of the two vertices, from byte 84 on. *)
Example AddVertex_array_uploads :
  match gl_buffers
          (gl (machine_of
                 (AddVertex_array [sample_vertex 4; sample_vertex 5] 2
                    loaded_machine))) !! 1 with
  | Some buf =>
      read_bytes (buf_bytes buf) 84 56 =
        map Some (encode (sample_vertex 4) ++ encode (sample_vertex 5))
      /\ read_bytes (buf_bytes buf) 0 84 = repeat None 84
  | None => False
  end.
Proof. vm_compute. auto. Qed.

(** ** The batch stays ready *)

Lemma ready_spec (m : Machine) :
  ready m = true <->
  exists blk buf,
    data (this m) <> nullptr
    /\ heap m !! data (this m) = Some blk
    /\ gl_buffers (gl m) !! m_vertex_data_vbo (this m) = Some buf
    /\ blk_size blk = m_data_size (this m)
    /\ m_data_size (this m) < 2 ^ 32
    /\ buffer_updatable buf = true
    /\ buf_size buf = m_data_size (this m).
Proof.
  unfold ready, deref. split.
  - destruct (data (this m) =? nullptr) eqn:Hnull; [discriminate|].
    destruct (heap m !! data (this m)) as [blk|]; [|discriminate].
    destruct (gl_buffers (gl m) !! _) as [buf|]; [|discriminate].
    rewrite !andb_true_iff, !N.eqb_eq, N.ltb_lt.
    intros [[[? ?] ?] ?]. exists blk, buf.
    apply N.eqb_neq in Hnull. auto 10.
  - intros (blk & buf & Hnull & -> & -> & ? & ? & ? & ?).
    apply N.eqb_neq in Hnull. rewrite Hnull.
    rewrite !andb_true_iff, !N.eqb_eq, N.ltb_lt. auto.
Qed.

(** [ready] looks at three members, at the size of the staging block and
    at the store of the vertex buffer only. *)
Lemma ready_stable (m m' : Machine) (name off len : N) :
  data (this m') = data (this m) ->
  m_data_size (this m') = m_data_size (this m) ->
  m_vertex_data_vbo (this m') = m_vertex_data_vbo (this m) ->
  blk_size <$> heap m' !! data (this m) = blk_size <$> heap m !! data (this m) ->
  buffers_differ_only_in name off len (gl m) (gl m') ->
  ready m = true -> ready m' = true.
Proof.
  intros Hdata Hsize Hvbo Hblk Hbuf.
  rewrite !ready_spec.
  intros (blk & buf & Hnull & Hb & Hg & ? & ? & Hup & ?).
  rewrite Hdata, Hsize, Hvbo.
  rewrite Hb in Hblk. simpl in Hblk.
  destruct (heap m' !! data (this m)) as [blk'|] eqn:Hb'; [|discriminate].
  simpl in Hblk. injection Hblk as Hblk.
  specialize (Hbuf (m_vertex_data_vbo (this m))). rewrite Hg in Hbuf.
  destruct (gl_buffers (gl m') !! m_vertex_data_vbo (this m)) as [buf'|];
    [|contradiction].
  destruct Hbuf as (Hs & Hf & Hi & _).
  exists blk', buf'. repeat split; try congruence.
  unfold buffer_updatable in *. now rewrite Hf, Hi.
Qed.

Lemma vao_update_buffers (vaobj : N) (f : VAO -> VAO) (g : GL) :
  gl_buffers (vao_update vaobj f g) = gl_buffers g.
Proof. unfold vao_update. destruct (gl_vaos g !! vaobj); reflexivity. Qed.

(** Case analysis on the checks of a vertex array call. *)
Ltac vao_call_cases :=
  repeat match goal with
         | |- context [if ?b then _ else _] => destruct b
         | |- context [match ?x with _ => _ end] => destruct x
         end.

Lemma glEnableVertexArrayAttrib_buffers (vaobj index : N) (g : GL) :
  gl_buffers (glEnableVertexArrayAttrib vaobj index g) = gl_buffers g.
Proof.
  unfold glEnableVertexArrayAttrib.
  vao_call_cases; try reflexivity; apply vao_update_buffers.
Qed.

Lemma glVertexArrayAttribFormat_buffers
    (vaobj index size type normalized relativeoffset : N) (g : GL) :
  gl_buffers
    (glVertexArrayAttribFormat vaobj index size type normalized
       relativeoffset g) = gl_buffers g.
Proof.
  unfold glVertexArrayAttribFormat.
  vao_call_cases; try reflexivity; apply vao_update_buffers.
Qed.

Lemma glVertexArrayAttribBinding_buffers (vaobj index binding : N) (g : GL) :
  gl_buffers (glVertexArrayAttribBinding vaobj index binding g) =
  gl_buffers g.
Proof.
  unfold glVertexArrayAttribBinding.
  vao_call_cases; try reflexivity; apply vao_update_buffers.
Qed.

Lemma configure_attribute_buffers (vao : N) (g : GL) (a : VertexAttribute) :
  gl_buffers (configure_attribute vao g a) = gl_buffers g.
Proof.
  unfold configure_attribute.
  now rewrite glVertexArrayAttribBinding_buffers,
    glVertexArrayAttribFormat_buffers, glEnableVertexArrayAttrib_buffers.
Qed.

Lemma configure_attributes_buffers (vao : N) (attrs : list VertexAttribute)
    (g : GL) :
  gl_buffers (fold_left (configure_attribute vao) attrs g) = gl_buffers g.
Proof.
  revert g. induction attrs as [|a attrs IH]; intros g; simpl.
  - reflexivity.
  - rewrite IH. apply configure_attribute_buffers.
Qed.

Lemma glVertexArrayVertexBuffer_buffers (vaobj idx buffer offs stride : N)
    (g : GL) :
  gl_buffers (glVertexArrayVertexBuffer vaobj idx buffer offs stride g) =
  gl_buffers g.
Proof.
  unfold glVertexArrayVertexBuffer.
  vao_call_cases; try reflexivity; apply vao_update_buffers.
Qed.

Lemma glNamedBufferStorage_other (buffer size flags name : N) (g : GL) :
  name <> buffer ->
  gl_buffers (glNamedBufferStorage buffer size flags g) !! name =
  gl_buffers g !! name.
Proof.
  intros Hne. unfold glNamedBufferStorage.
  destruct (gl_buffers g !! buffer) as [b|]; [|reflexivity].
  destruct (buf_immutable b); [reflexivity|].
  destruct (_ || _); [reflexivity|].
  simpl. now rewrite lookup_insert_ne.
Qed.

(** The store [init] asks for, for a buffer just created: the buffer ends
    up with [size] bytes and accepts updates, also when [size] is zero
    and the request is refused. *)
Lemma glNamedBufferStorage_dynamic (buffer size : N) (g : GL) :
  gl_buffers g !! buffer =
    Some {| buf_immutable := false; buf_flags := 0; buf_size := 0;
            buf_bytes := no_bytes |} ->
  exists buf,
    gl_buffers (glNamedBufferStorage buffer size GL_DYNAMIC_STORAGE_BIT g)
      !! buffer = Some buf
    /\ buffer_updatable buf = true
    /\ buf_size buf = size.
Proof.
  intros Hb. unfold glNamedBufferStorage. rewrite Hb. simpl.
  destruct (size =? 0) eqn:Hzero; simpl.
  - apply N.eqb_eq in Hzero. subst size.
    eexists. split; [exact Hb|]. auto.
  - eexists. split; [apply lookup_insert_eq|]. auto.
Qed.

Section Ready.

Context {T : Type} `{VertexLayout T}.

(** [init] makes the batch ready, whatever the machine it starts on. *)
Lemma init_ready (chunk_radius : N) (attrs : list VertexAttribute)
    (m : Machine) :
  ready (machine_of (init chunk_radius attrs m)) = true
  /\ m_vertex_count (this (machine_of (init chunk_radius attrs m))) = 0
  /\ m_data_size (this (machine_of (init chunk_radius attrs m))) =
       wrap32 (size_mul sizeofT kMaxBatchSize).
Proof.
  split; [|split; reflexivity].
  apply ready_spec. unfold init. simpl.
  rewrite configure_attributes_buffers, glVertexArrayVertexBuffer_buffers.
  rewrite glNamedBufferStorage_other by lia.
  set (vbo := N.succ (gl_names (gl m))).
  set (g3 := gl_set_vao _ _ _).
  destruct (glNamedBufferStorage_dynamic vbo
              (wrap32 (size_mul sizeofT kMaxBatchSize)) g3)
    as (buf & Hbuf & Hup & Hsize).
  { subst g3. simpl. rewrite lookup_insert_ne by lia.
    apply lookup_insert_eq. }
  eexists. exists buf. repeat split.
  - unfold nullptr. lia.
  - apply lookup_insert_eq.
  - exact Hbuf.
  - reflexivity.
  - apply N.mod_lt. discriminate.
  - exact Hup.
  - exact Hsize.
Qed.

Lemma ready_not_null (m : Machine) :
  ready m = true -> (data (this m) =? nullptr) = false.
Proof.
  intros Hready. apply ready_spec in Hready as (? & ? & Hnull & _).
  now apply N.eqb_neq.
Qed.

Lemma AddVertex_ready (vertex : T) (m : Machine) :
  ready m = true -> ready (machine_of (AddVertex vertex m)) = true.
Proof.
  intros Hready. pose proof (ready_not_null m Hready) as Hnull.
  destruct (AddVertex_exits vertex m)
    as [[m' E]|[[m' E]|(f & m' & E)]]; rewrite E; simpl.
  - apply AddVertex_Completed in E as (blk & _ & _ & Hblk & _ & ->).
    eapply (ready_stable m _ 0 0 0); eauto; simpl.
    + now rewrite lookup_insert_eq, Hblk.
    + now apply buffers_differ_only_in_same.
  - unfold AddVertex in E. rewrite Hnull in E.
    destruct (negb (hasRoom (this m))); [|rewrite count_never_negative in E;
      destruct (store_vertex _ _ _); discriminate].
    injection E as <-.
    eapply (ready_stable m _ 0 0 0); eauto.
    now apply buffers_differ_only_in_same.
  - unfold AddVertex in E. rewrite Hnull in E.
    destruct (negb (hasRoom (this m))); [discriminate|].
    rewrite count_never_negative in E.
    destruct (store_vertex _ _ _); [discriminate|].
    now injection E as _ <-.
Qed.

Lemma AddVertex_array_ready (vertex : list T) (amount : N) (m : Machine) :
  ready m = true ->
  ready (machine_of (AddVertex_array vertex amount m)) = true.
Proof.
  intros Hready.
  assert (Hcheck : after_null_check m = m).
  { unfold after_null_check. now rewrite (ready_not_null m Hready). }
  destruct (AddVertex_array_exits vertex amount m)
    as [[m' E]|[[m' E]|(f & m' & E)]]; rewrite E; simpl.
  - apply AddVertex_array_Completed in E as (g & _ & Hsub & ->).
    rewrite Hcheck.
    apply glNamedBufferSubData_frame in Hsub as (Hbuf & _).
    eapply (ready_stable m); [..|exact Hbuf|exact Hready]; reflexivity.
  - unfold AddVertex_array in E. fold (after_null_check m) in E.
    rewrite Hcheck in E.
    destruct (negb (hasRoom (this m))); [|rewrite count_never_negative in E;
      destruct (glNamedBufferSubData _ _ _ _ _); discriminate].
    injection E as <-.
    eapply (ready_stable m _ 0 0 0); eauto.
    now apply buffers_differ_only_in_same.
  - unfold AddVertex_array in E. fold (after_null_check m) in E.
    rewrite Hcheck in E.
    destruct (negb (hasRoom (this m))); [discriminate|].
    rewrite count_never_negative in E.
    destruct (glNamedBufferSubData _ _ _ _ _); [discriminate|].
    now injection E as _ <-.
Qed.

End Ready.

(** ** Records of the staging array *)

Lemma size_mul_exact (i sz : N) :
  i <= kMaxBatchSize + 1 -> sz < 2 ^ 32 -> size_mul i sz = i * sz.
Proof.
  intros Hi Hsz. unfold size_mul. apply wrap64_small.
  unfold kMaxBatchSize in Hi.
  change (2 ^ 32) with 4294967296 in Hsz.
  change (2 ^ 64) with 18446744073709551616. nia.
Qed.

Section Staging.

Context {T : Type} `{VertexLayout T}.

(** One completed [AddVertex] on a ready batch: record [m_vertex_count]
    now holds the image of the vertex, the records before it are what
    they were. *)
Lemma AddVertex_slot (vertex : T) (m m' : Machine) :
  ready m = true ->
  AddVertex vertex m = Completed m' ->
  staging_slot (m_vertex_count (this m)) m' = Some (map Some (encode vertex))
  /\ forall j, j < m_vertex_count (this m) ->
               staging_slot (T := T) j m' = staging_slot (T := T) j m.
Proof.
  intros Hready Hadd.
  pose proof (ready_not_null m Hready) as Hnull.
  apply ready_spec in Hready as (blk0 & buf & _ & Hblk0 & _ & Hsz & Hu32 & _).
  apply AddVertex_Completed in Hadd as (blk & _ & Hroom & Hblk & Hfit & ->).
  rewrite Hblk0 in Hblk. injection Hblk as <-.
  unfold staging_slot, deref. simpl. rewrite Hnull.
  rewrite lookup_insert_eq, Hblk0. simpl. split.
  - f_equal.
    pose proof (read_bytes_written
                  (size_mul (m_vertex_count (this m)) sizeofT)
                  (encode vertex) (blk_bytes blk0)) as Hread.
    now rewrite encode_length in Hread.
  - intros j Hj. f_equal. apply read_bytes_ext. intros a Hlo Hhi.
    apply write_bytes_outside. left.
    assert (Hs : sizeofT < 2 ^ 32) by lia.
    rewrite (size_mul_exact (m_vertex_count (this m))) in * by lia.
    rewrite (size_mul_exact j) in * by lia. nia.
Qed.

Lemma AddVertex_each_spec (vs : list T) :
  forall m m' : Machine,
    ready m = true ->
    AddVertex_each vs m = Some m' ->
    ready m' = true
    /\ m_vertex_count (this m') = m_vertex_count (this m) + N.of_nat (length vs)
    /\ (forall (i : nat) (v : T),
          vs !! i = Some v ->
          staging_slot (m_vertex_count (this m) + N.of_nat i) m' =
            Some (map Some (encode v)))
    /\ (forall j, j < m_vertex_count (this m) ->
                  staging_slot (T := T) j m' = staging_slot (T := T) j m).
Proof.
  induction vs as [|v vs IH]; intros m m' Hready Heach; simpl in Heach.
  - injection Heach as <-. simpl. rewrite N.add_0_r.
    repeat split; auto. intros i v Hi. discriminate.
  - destruct (AddVertex v m) as [m1| |] eqn:Hadd; try discriminate.
    pose proof (AddVertex_ready v m Hready) as Hready1.
    rewrite Hadd in Hready1. simpl in Hready1.
    destruct (AddVertex_slot v m m1 Hready Hadd) as [Hhere Hbefore].
    pose proof (AddVertex_count_succ v m m1 Hadd) as Hcount.
    destruct (IH m1 m' Hready1 Heach) as (Hr & Hc & Hslots & Hkeep).
    split; [exact Hr|]. split; [simpl length; lia|]. split.
    + intros [|i] w Hi; simpl in Hi.
      * injection Hi as <-. rewrite N.add_0_r.
        rewrite Hkeep by lia. exact Hhere.
      * replace (m_vertex_count (this m) + N.of_nat (S i))
          with (m_vertex_count (this m1) + N.of_nat i) by lia.
        now apply Hslots.
    + intros j Hj. rewrite Hkeep by lia. now apply Hbefore.
Qed.

(** C5. Take a ready batch whose count is zero (just initialized, or
    just cleared) and let [n] single-vertex [AddVertex] calls with the
    vertices [v1 .. vn] each run to their end.  Then the count is [n] and
    record [i] of the staging array holds the image of [v(i+1)], for
    every [i < n]: the vertices sit in the array in call order. *)
Theorem AddVertex_each_in_call_order (vs : list T) (m m' : Machine) :
  ready m = true ->
  m_vertex_count (this m) = 0 ->
  AddVertex_each vs m = Some m' ->
  m_vertex_count (this m') = N.of_nat (length vs)
  /\ forall (i : nat) (v : T),
       vs !! i = Some v ->
       staging_slot (N.of_nat i) m' = Some (map Some (encode v)).
Proof.
  intros Hready Hzero Heach.
  destruct (AddVertex_each_spec vs m m' Hready Heach)
    as (_ & Hcount & Hslots & _).
  rewrite Hzero in *. split; [exact Hcount|].
  intros i v Hi. now apply (Hslots i v).
Qed.

(** The calls of C5 do run to their end as long as the vertices fit. *)
Lemma AddVertex_runs (vertex : T) (m : Machine) :
  ready m = true ->
  m_data_size (this m) = sizeofT * kMaxBatchSize ->
  m_vertex_count (this m) < kMaxBatchSize ->
  exists m', AddVertex vertex m = Completed m'.
Proof.
  intros Hready Hsize Hcount.
  pose proof (ready_not_null m Hready) as Hnull.
  apply ready_spec in Hready as (blk & buf & _ & Hblk & _ & Hsz & Hu32 & _).
  unfold AddVertex. rewrite Hnull.
  assert (Hroom : hasRoom (this m) = true) by (apply hasRoom_true; lia).
  rewrite Hroom, count_never_negative. simpl.
  unfold store_vertex. rewrite Hnull, Hblk.
  assert (Hs : sizeofT < 2 ^ 32).
  { unfold kMaxBatchSize in *. nia. }
  rewrite size_mul_exact by lia.
  destruct (blk_size blk <? _) eqn:Hfit; [|eauto].
  apply N.ltb_lt in Hfit. nia.
Qed.

Lemma AddVertex_each_runs (vs : list T) :
  forall m : Machine,
    ready m = true ->
    m_data_size (this m) = sizeofT * kMaxBatchSize ->
    m_vertex_count (this m) + N.of_nat (length vs) <= kMaxBatchSize ->
    exists m', AddVertex_each vs m = Some m'.
Proof.
  induction vs as [|v vs IH]; intros m Hready Hsize Hfit; simpl.
  - eauto.
  - simpl length in Hfit.
    destruct (AddVertex_runs v m Hready Hsize) as [m1 Hadd]; [lia|].
    rewrite Hadd.
    pose proof (AddVertex_ready v m Hready) as Hready1.
    rewrite Hadd in Hready1.
    apply AddVertex_Completed in Hadd as (blk & _ & _ & _ & _ & Hm1).
    apply IH; [exact Hready1|subst m1; exact Hsize|subst m1; simpl; lia].
Qed.

End Staging.

Lemma AddVertex_each_in_call_order_witness :
  m_vertex_count (this loaded_machine) =
    N.of_nat (length [sample_vertex 1; sample_vertex 2; sample_vertex 3])
  /\ forall (i : nat) (v : Vertex3D),
       [sample_vertex 1; sample_vertex 2; sample_vertex 3] !! i = Some v ->
       staging_slot (N.of_nat i) loaded_machine = Some (map Some (encode v)).
Proof.
  apply (AddVertex_each_in_call_order
           [sample_vertex 1; sample_vertex 2; sample_vertex 3]
           initialized_machine loaded_machine).
  - vm_compute. reflexivity.
  - vm_compute. reflexivity.
  - vm_compute. reflexivity.
Defined.

(** The first record of [loaded_machine], byte by byte. *)
Example loaded_machine_first_record :
  staging_slot (T := Vertex3D) 0 loaded_machine =
    Some (map Some
            [ "001"; "000"; "000"; "000"; "255"; "255"; "255"; "255";
              "002"; "000"; "000"; "000"; "000"; "000"; "128"; "063";
              "000"; "000"; "000"; "000"; "001"; "000"; "000"; "000";
              "000"; "000"; "000"; "064" ]%byte).
Proof. vm_compute. reflexivity. Qed.

(** A batch of [Vertex3D] takes [kMaxBatchSize] single vertices after
    [init]. *)
Lemma AddVertex_each_fills_Vertex3D (chunk_radius : N)
    (attrs : list VertexAttribute) (m : Machine) (vs : list Vertex3D) :
  N.of_nat (length vs) <= kMaxBatchSize ->
  exists m',
    AddVertex_each vs (machine_of (init (T := Vertex3D) chunk_radius attrs m))
      = Some m'
    /\ m_vertex_count (this m') = N.of_nat (length vs).
Proof.
  intros Hlen.
  destruct (init_ready (T := Vertex3D) chunk_radius attrs m)
    as (Hready & Hzero & Hsize).
  destruct (AddVertex_each_runs vs _ Hready) as [m' Heach].
  - rewrite Hsize. reflexivity.
  - rewrite Hzero. lia.
  - exists m'. split; [exact Heach|].
    destruct (AddVertex_each_spec vs _ m' Hready Heach) as (_ & Hcount & _).
    rewrite Hcount, Hzero. reflexivity.
Qed.

(** ** [ReloadData] *)

Section Reload.

Context {T : Type} `{VertexLayout T}.

(** C6, amended.  On a ready batch (the staging region allocated, the
    vertex buffer of its size) [ReloadData] runs to its end and copies
    the whole staging region, all [m_data_size] bytes of it whatever the
    count, into the vertex buffer from byte 0 on; nothing else changes.
    Hence each of the first [m_vertex_count] records that lies in the
    staging region is found byte for byte at the same place in the
    vertex buffer. *)
Theorem ReloadData_copies_staging (m : Machine) :
  ready m = true ->
  exists m' blk buf',
    ReloadData m = Completed m'
    /\ this m' = this m
    /\ heap m' = heap m
    /\ log m' = log m
    /\ deref (data (this m)) m = Some blk
    /\ gl_buffers (gl m') !! m_vertex_data_vbo (this m) = Some buf'
    /\ buf_size buf' = m_data_size (this m)
    /\ (forall a, a < m_data_size (this m) ->
                  buf_bytes buf' a = blk_bytes blk a)
    /\ (forall i, i < m_vertex_count (this m) ->
                  (i + 1) * sizeofT <= m_data_size (this m) ->
                  gpu_slot (T := T) i m' = staging_slot (T := T) i m'
                  /\ gpu_slot (T := T) i m' <> None).
Proof.
  intros Hready.
  pose proof (ready_not_null m Hready) as Hnull.
  apply ready_spec in Hready
    as (blk & buf & _ & Hblk & Hbuf & Hsz & Hu32 & Hup & Hbsz).
  assert (Hderef : deref (data (this m)) m = Some blk)
    by (unfold deref; now rewrite Hnull).
  assert (Hslots :
    forall (g' : GL) (buf' : GLBuffer),
      gl_buffers g' !! m_vertex_data_vbo (this m) = Some buf' ->
      (forall a, a < m_data_size (this m) ->
                 buf_bytes buf' a = blk_bytes blk a) ->
      forall i, i < m_vertex_count (this m) ->
                (i + 1) * sizeofT <= m_data_size (this m) ->
                gpu_slot (T := T) i (with_gl g' m) =
                  staging_slot (T := T) i (with_gl g' m)
                /\ gpu_slot (T := T) i (with_gl g' m) <> None).
  { intros g' buf' Hbuf' Hsame i _ Hin.
    unfold gpu_slot, staging_slot, deref. simpl.
    rewrite Hbuf', Hnull, Hblk. split; [|discriminate].
    f_equal. apply read_bytes_ext. intros a _ Hhi. apply Hsame.
    assert (Hwrap : size_mul i sizeofT <= i * sizeofT).
    { unfold size_mul, wrap64. apply N.Div0.mod_le. }
    lia. }
  unfold ReloadData, glNamedBufferSubData.
  rewrite Hbuf, Hup, Hderef, Hbsz, Hsz. simpl.
  rewrite !N.ltb_irrefl.
  destruct (m_data_size (this m) =? 0) eqn:Hzero.
  - apply N.eqb_eq in Hzero.
    exists (with_gl (gl m) m), blk, buf.
    assert (Hnone : forall a, a < m_data_size (this m) ->
                              buf_bytes buf a = blk_bytes blk a)
      by (intros a Ha; lia).
    repeat split; auto.
    + now apply (Hslots (gl m) buf).
    + now apply (Hslots (gl m) buf).
  - eexists (with_gl _ m), blk, _.
    assert (Hcopied :
      forall a, a < m_data_size (this m) ->
                copy_bytes 0 (m_data_size (this m)) (blk_bytes blk)
                  (buf_bytes buf) a = blk_bytes blk a).
    { intros a Ha. rewrite copy_bytes_inside by lia. f_equal. lia. }
    split; [reflexivity|]. simpl.
    rewrite lookup_insert_eq.
    repeat split; auto.
    + eapply Hslots; eauto; simpl; [apply lookup_insert_eq|exact Hcopied].
    + eapply Hslots; eauto; simpl; [apply lookup_insert_eq|exact Hcopied].
Qed.

(** When the batch is within its capacity and [m_data_size] is the full
    [sizeof(T) * kMaxBatchSize], each of the first [m_vertex_count]
    records lies in the region [ReloadData] copies. *)
Lemma records_within_capacity (m : Machine) (i : N) :
  m_data_size (this m) = sizeofT * kMaxBatchSize ->
  m_vertex_count (this m) <= kMaxBatchSize ->
  i < m_vertex_count (this m) ->
  (i + 1) * sizeofT <= m_data_size (this m).
Proof. intros -> Hcount Hi. nia. Qed.

End Reload.

Lemma ReloadData_copies_staging_witness :
  exists m' blk buf',
    ReloadData loaded_machine = Completed m'
    /\ this m' = this loaded_machine
    /\ heap m' = heap loaded_machine
    /\ log m' = log loaded_machine
    /\ deref (data (this loaded_machine)) loaded_machine = Some blk
    /\ gl_buffers (gl m') !! m_vertex_data_vbo (this loaded_machine) =
         Some buf'
    /\ buf_size buf' = m_data_size (this loaded_machine)
    /\ (forall a, a < m_data_size (this loaded_machine) ->
                  buf_bytes buf' a = blk_bytes blk a)
    /\ (forall i, i < m_vertex_count (this loaded_machine) ->
                  (i + 1) * sizeofT <= m_data_size (this loaded_machine) ->
                  gpu_slot (T := Vertex3D) i m' =
                    staging_slot (T := Vertex3D) i m'
                  /\ gpu_slot (T := Vertex3D) i m' <> None).
Proof.
  apply (ReloadData_copies_staging (T := Vertex3D) loaded_machine).
  vm_compute. reflexivity.
Defined.

(** C6 as stated, for every batch state, fails on [freed_machine]: the
    batch of [loaded_machine] after [Free], with three vertices counted
    and no staging region.  [ReloadData] runs to its end and copies
    nothing: [m_data_size] is 0.  None of the three records exists on
    the staging side, and the vertex buffer holds none of the three
    vertices that were staged: its first record is 28 bytes never
    written. *)
Lemma ReloadData_after_Free_copies_nothing :
  ready freed_machine = false
  /\ m_vertex_count (this freed_machine) = 3
  /\ m_data_size (this freed_machine) = 0
  /\ ReloadData freed_machine = Completed freed_machine
  /\ staging_slot (T := Vertex3D) 0 (machine_of (ReloadData freed_machine))
     = None
  /\ gpu_slot (T := Vertex3D) 0 (machine_of (ReloadData freed_machine))
     = Some (repeat None 28)
  /\ gpu_slot (T := Vertex3D) 0 (machine_of (ReloadData freed_machine))
     <> staging_slot (T := Vertex3D) 0 (machine_of (ReloadData freed_machine))
  /\ staging_slot (T := Vertex3D) 0 loaded_machine
     = Some (map Some (encode (sample_vertex 1))).
Proof.
  split; [vm_compute; reflexivity|].
  split; [vm_compute; reflexivity|].
  split; [vm_compute; reflexivity|].
  split; [vm_compute; reflexivity|].
  split; [vm_compute; reflexivity|].
  split; [vm_compute; reflexivity|].
  split; vm_compute; [discriminate|reflexivity].
Qed.

(** After [ReloadData] the vertex buffer of [loaded_machine] starts with
    the images of its three vertices. *)
Example ReloadData_loaded_machine :
  match gl_buffers (gl (machine_of (ReloadData loaded_machine))) !! 1 with
  | Some buf =>
      read_bytes (buf_bytes buf) 0 84 =
        map Some (encode (sample_vertex 1) ++ encode (sample_vertex 2)
                  ++ encode (sample_vertex 3))
  | None => False
  end.
Proof. vm_compute. reflexivity. Qed.

(** ** The capacity check *)

Section Capacity.

Context {T : Type} `{VertexLayout T}.

(** [hasRoom] still answers yes when the count has reached the capacity,
    so neither overload returns early there. *)
Lemma AddVertex_at_capacity_not_rejected (vertex : T) (array : list T)
    (amount : N) (m m' : Machine) :
  m_vertex_count (this m) = kMaxBatchSize ->
  AddVertex vertex m <> Aborted NoRoom m'
  /\ AddVertex_array array amount m <> Aborted NoRoom m'.
Proof.
  intros Hfull.
  assert (Hroom : hasRoom (this (after_null_check m)) = true).
  { unfold after_null_check. apply hasRoom_true.
    destruct (_ =? _); simpl; rewrite Hfull; reflexivity. }
  unfold AddVertex, AddVertex_array. fold (after_null_check m).
  rewrite Hroom, count_never_negative. simpl. split.
  - destruct (store_vertex _ _ _); discriminate.
  - destruct (glNamedBufferSubData _ _ _ _ _); discriminate.
Qed.

(** On a ready batch at capacity the single-vertex store lands one
    record past the end of the staging block. *)
Lemma AddVertex_at_capacity_overruns (vertex : T) (m : Machine) :
  ready m = true ->
  m_data_size (this m) = sizeofT * kMaxBatchSize ->
  0 < sizeofT ->
  m_vertex_count (this m) = kMaxBatchSize ->
  AddVertex vertex m = Fault OutOfBounds m.
Proof.
  intros Hready Hsize Hpos Hfull.
  pose proof (ready_not_null m Hready) as Hnull.
  apply ready_spec in Hready as (blk & buf & _ & Hblk & _ & Hsz & Hu32 & _).
  unfold AddVertex. rewrite Hnull.
  assert (Hroom : hasRoom (this m) = true)
    by (apply hasRoom_true; rewrite Hfull; reflexivity).
  rewrite Hroom, count_never_negative. simpl.
  unfold store_vertex. rewrite Hnull, Hblk.
  assert (Hs : sizeofT < 2 ^ 32) by (unfold kMaxBatchSize in *; nia).
  rewrite size_mul_exact by (rewrite ?Hfull; lia).
  destruct (blk_size blk <? _) eqn:Hfit; [reflexivity|].
  apply N.ltb_ge in Hfit. nia.
Qed.

(** The bulk overload never looks at [vertex_amount] before it adds it to
    the count. *)
Lemma AddVertex_array_count_unchecked (array : list T) (amount : N)
    (m : Machine) :
  m_vertex_count (this m) <= kMaxBatchSize ->
  (exists m', AddVertex_array array amount m = Completed m'
              /\ m_vertex_count (this m') =
                   wrap32 (m_vertex_count (this m) + amount))
  \/ (exists f m', AddVertex_array array amount m = Fault f m').
Proof.
  intros Hroom.
  destruct (AddVertex_array_exits array amount m)
    as [[m' E]|[[m' E]|(f & m' & E)]].
  - left. exists m'. split; [exact E|].
    apply AddVertex_array_Completed in E as (g & _ & _ & ->). reflexivity.
  - exfalso. unfold AddVertex_array in E. fold (after_null_check m) in E.
    assert (Hr : hasRoom (this (after_null_check m)) = true).
    { unfold after_null_check. apply hasRoom_true.
      destruct (_ =? _); exact Hroom. }
    rewrite Hr, count_never_negative in E. simpl in E.
    destruct (glNamedBufferSubData _ _ _ _ _); discriminate.
  - right. eauto.
Qed.

(** With [data] null both overloads log the error and carry on. *)
Lemma AddVertex_null_data_goes_on (vertex : T) (m : Machine) :
  data (this m) = nullptr ->
  m_vertex_count (this m) <= kMaxBatchSize ->
  AddVertex vertex m =
    Fault NullPointer (AmoLogger_Error "Invalid batch.\n" [] m).
Proof.
  intros Hnull Hroom. unfold AddVertex. rewrite Hnull. simpl.
  apply hasRoom_true in Hroom. rewrite Hroom, count_never_negative. simpl.
  unfold store_vertex. simpl. now rewrite Hnull.
Qed.

End Capacity.

(** The state just before the overrun is reached by [kMaxBatchSize]
    single-vertex calls after [init]. *)
Lemma AddVertex_past_capacity_Vertex3D (chunk_radius : N)
    (attrs : list VertexAttribute) (m : Machine) (vs : list Vertex3D)
    (vertex : Vertex3D) :
  N.of_nat (length vs) = kMaxBatchSize ->
  exists m',
    AddVertex_each vs (machine_of (init (T := Vertex3D) chunk_radius attrs m))
      = Some m'
    /\ m_vertex_count (this m') = kMaxBatchSize
    /\ AddVertex vertex m' = Fault OutOfBounds m'.
Proof.
  intros Hlen.
  destruct (AddVertex_each_fills_Vertex3D chunk_radius attrs m vs)
    as (m' & Heach & Hcount); [lia|].
  exists m'. split; [exact Heach|]. split; [congruence|].
  destruct (init_ready (T := Vertex3D) chunk_radius attrs m)
    as (Hready & _ & Hsize).
  destruct (AddVertex_each_spec vs _ m' Hready Heach) as (Hready' & _).
  apply AddVertex_at_capacity_overruns; auto.
  - assert (Hkeep : forall (ws : list Vertex3D) (a b : Machine),
              AddVertex_each ws a = Some b ->
              m_data_size (this b) = m_data_size (this a)).
    { induction ws as [|w ws IH]; intros a b Hab; simpl in Hab.
      - now injection Hab as <-.
      - destruct (AddVertex w a) as [a1| |] eqn:Hadd; try discriminate.
        rewrite (IH _ _ Hab).
        apply AddVertex_Completed in Hadd as (? & _ & _ & _ & _ & ->).
        reflexivity. }
    rewrite (Hkeep _ _ _ Heach), Hsize. reflexivity.
  - reflexivity.
  - congruence.
Qed.

(** C1, evaluated.  (1) After [init], one bulk [AddVertex] of
    [kMaxBatchSize + 1] vertices is not refused: it runs to its end and
    leaves the count at [kMaxBatchSize + 1].  (2) With the count at
    [kMaxBatchSize], [hasRoom] holds; the single-vertex overload is not
    refused and stores past the end of the staging block, and a bulk
    call of one vertex moves the count to [kMaxBatchSize + 1]. *)
Theorem AddVertex_exceeds_capacity :
  (forall array : list Vertex3D,
     exists m',
       AddVertex_array array (kMaxBatchSize + 1) initialized_machine =
         Completed m'
       /\ m_vertex_count (this m') = kMaxBatchSize + 1)
  /\ ready full_machine = true
  /\ m_vertex_count (this full_machine) = kMaxBatchSize
  /\ hasRoom (this full_machine) = true
  /\ AddVertex (sample_vertex 1) full_machine = Fault OutOfBounds full_machine
  /\ exists m',
       AddVertex_array [sample_vertex 1] 1 full_machine = Completed m'
       /\ m_vertex_count (this m') = kMaxBatchSize + 1.
Proof.
  split.
  { intros array. eexists. split; vm_compute; reflexivity. }
  split; [vm_compute; reflexivity|].
  split; [vm_compute; reflexivity|].
  split; [vm_compute; reflexivity|].
  split; [vm_compute; reflexivity|].
  eexists. split; vm_compute; reflexivity.
Qed.

(** C2, evaluated.  On the batch that was never initialized ([data] is
    null) the single-vertex overload logs the error and then stores
    through the null pointer; the bulk overload logs the error, issues
    the upload and adds [vertex_amount] to the count.  On a batch whose
    staging memory was freed (its vertex buffer still exists) the bulk
    overload also writes the vertex into the vertex buffer. *)
Theorem AddVertex_null_data_not_aborted :
  AddVertex (sample_vertex 1) static_machine =
    Fault NullPointer
      (AmoLogger_Error "Invalid batch.\n" [] static_machine)
  /\ (exists m',
        AddVertex_array [sample_vertex 1] 1 static_machine = Completed m'
        /\ log m' = [LoggerError "Invalid batch.\n" []]
        /\ m_vertex_count (this static_machine) = 0
        /\ m_vertex_count (this m') = 1)
  /\ data (this freed_machine) = nullptr
  /\ exists m' buf,
       AddVertex_array [sample_vertex 4] 1 freed_machine = Completed m'
       /\ m_vertex_count (this freed_machine) = 3
       /\ m_vertex_count (this m') = 4
       /\ gl_buffers (gl m') !! m_vertex_data_vbo (this m') = Some buf
       /\ read_bytes (buf_bytes buf) 84 28 =
            map Some (encode (sample_vertex 4)).
Proof.
  split; [vm_compute; reflexivity|].
  split.
  { eexists. split; [vm_compute; reflexivity|]. vm_compute. auto. }
  split; [vm_compute; reflexivity|].
  eexists. eexists. split; [vm_compute; reflexivity|].
  split; [vm_compute; reflexivity|].
  split; [vm_compute; reflexivity|].
  split; vm_compute; reflexivity.
Qed.

(** ** What the checks do guarantee *)

Section Invariant.

Context {T : Type} `{VertexLayout T}.

(** Past the capacity both overloads return early, and the early return
    changes nothing but the log. *)
Lemma AddVertex_rejected_past_capacity (vertex : T) (array : list T)
    (amount : N) (m : Machine) :
  kMaxBatchSize < m_vertex_count (this m) ->
  exists m',
    AddVertex vertex m = Aborted NoRoom m'
    /\ AddVertex_array array amount m = Aborted NoRoom m'
    /\ this m' = this m /\ heap m' = heap m /\ gl m' = gl m.
Proof.
  intros Hfull.
  assert (Hthis : this (after_null_check m) = this m)
    by (unfold after_null_check; destruct (_ =? _); reflexivity).
  assert (Hroom : hasRoom (this (after_null_check m)) = false).
  { rewrite Hthis. unfold hasRoom. apply N.leb_gt. exact Hfull. }
  unfold AddVertex, AddVertex_array. fold (after_null_check m).
  rewrite Hroom. simpl. eexists. split; [reflexivity|].
  split; [reflexivity|]. simpl.
  unfold after_null_check. destruct (_ =? _); auto.
Qed.

Lemma Draw_ready (m : Machine) :
  ready m = true -> ready (machine_of (Draw m)) = true.
Proof.
  intros Hready.
  destruct (N.eq_dec (m_vertex_count (this m)) 0) as [Hzero|Hpos].
  - unfold Draw. rewrite Hzero. simpl.
    eapply (ready_stable m _ 0 0 0); eauto.
    now apply buffers_differ_only_in_same.
  - destruct (Draw_pending m) as (g & -> & _ & Hbuf & _); [lia|]. simpl.
    eapply (ready_stable m _ 0 0 0); eauto.
    now apply buffers_differ_only_in_same.
Qed.

Lemma Clear_ready (m : Machine) :
  ready m = true ->
  ready (Clear m) = true /\ m_vertex_count (this (Clear m)) = 0.
Proof.
  intros Hready. split; [|reflexivity].
  eapply (ready_stable m _ 0 0 0); eauto.
  now apply buffers_differ_only_in_same.
Qed.

Lemma ReloadData_ready (m : Machine) :
  ready m = true -> ready (machine_of (ReloadData m)) = true.
Proof.
  intros Hready. unfold ReloadData.
  destruct (glNamedBufferSubData _ _ _ _ _) as [g|f] eqn:Hsub; simpl.
  - apply glNamedBufferSubData_frame in Hsub as (Hbuf & _).
    eapply (ready_stable m); [..|exact Hbuf|exact Hready]; reflexivity.
  - exact Hready.
Qed.

(** Every member function but [Free] keeps the batch ready, however the
    call ends. *)
Lemma call_ready (c : Call (T := T)) (m : Machine) :
  c <> CallFree ->
  ready m = true -> ready (machine_of (call c m)) = true.
Proof.
  intros Hc Hready. destruct c; simpl.
  - now apply AddVertex_ready.
  - now apply AddVertex_array_ready.
  - now apply Draw_ready.
  - now apply ReloadData_ready.
  - now apply Clear_ready.
  - contradiction.
Qed.

Lemma run_ready (cs : list (Call (T := T))) :
  forall m : Machine,
    ~ In CallFree cs ->
    ready m = true -> ready (machine_of (run cs m)) = true.
Proof.
  induction cs as [|c cs IH]; intros m Hfree Hready; simpl.
  - exact Hready.
  - assert (Hc : c <> CallFree) by (intros ->; apply Hfree; now left).
    assert (Hcs : ~ In CallFree cs) by (intros Hin; apply Hfree; now right).
    pose proof (call_ready c m Hc Hready) as Hstep.
    destruct (call c m) as [m1|why m1|f m1]; simpl in Hstep.
    + now apply IH.
    + now apply IH.
    + exact Hstep.
Qed.

End Invariant.
(** ** [init] *)

Lemma glNamedBufferStorage_vaos (buffer size flags : N) (g : GL) :
  gl_vaos (glNamedBufferStorage buffer size flags g) = gl_vaos g.
Proof.
  unfold glNamedBufferStorage.
  destruct (gl_buffers g !! buffer) as [b|]; [|reflexivity].
  destruct (buf_immutable b); [reflexivity|].
  destruct (_ || _); reflexivity.
Qed.

Lemma glNamedBufferStorage_limits (buffer size flags : N) (g : GL) :
  gl_limits (glNamedBufferStorage buffer size flags g) = gl_limits g.
Proof.
  unfold glNamedBufferStorage.
  destruct (gl_buffers g !! buffer) as [b|]; [|reflexivity].
  destruct (buf_immutable b); [reflexivity|].
  destruct (_ || _); reflexivity.
Qed.

(** A request with [GL_DYNAMIC_DRAW] in the place of the storage flags
    is refused, whatever the size. *)
Lemma glNamedBufferStorage_usage_refused (buffer size : N) (g : GL)
    (b : GLBuffer) :
  gl_buffers g !! buffer = Some b ->
  buf_immutable b = false ->
  glNamedBufferStorage buffer size GL_DYNAMIC_DRAW g =
    gl_fail GL_INVALID_VALUE g.
Proof.
  intros Hb Himm. unfold glNamedBufferStorage. rewrite Hb, Himm.
  replace (negb (N.ldiff GL_DYNAMIC_DRAW storage_flag_bits =? 0)) with true
    by reflexivity.
  now rewrite orb_true_r.
Qed.

Lemma gl_extends_refl (g : GL) : gl_extends g g.
Proof. repeat split; auto. Qed.

Lemma gl_extends_trans (g1 g2 g3 : GL) :
  gl_extends g1 g2 -> gl_extends g2 g3 -> gl_extends g1 g3.
Proof.
  intros (Hl1 & Hb1 & He1 & Hv1) (Hl2 & Hb2 & He2 & Hv2).
  repeat split; try congruence; auto.
Qed.

Lemma gl_extends_fail (e : GLerror) (g : GL) : gl_extends g (gl_fail e g).
Proof.
  repeat split; auto. intros e' He. simpl. rewrite in_app_iff. auto.
Qed.

Lemma gl_extends_update (vaobj : N) (f : VAO -> VAO) (g : GL) :
  gl_extends g (vao_update vaobj f g).
Proof.
  unfold vao_update.
  destruct (gl_vaos g !! vaobj) as [v|] eqn:Hv; [|apply gl_extends_fail].
  repeat split; auto. intros n Hn. simpl.
  destruct (decide (n = vaobj)) as [->|Hne].
  - rewrite lookup_insert_eq. eauto.
  - now rewrite lookup_insert_ne.
Qed.

Create HintDb gl_calls.

#[local] Hint Resolve gl_extends_refl gl_extends_fail gl_extends_update
  : gl_calls.

Lemma glEnableVertexArrayAttrib_extends (vaobj index : N) (g : GL) :
  gl_extends g (glEnableVertexArrayAttrib vaobj index g).
Proof.
  unfold glEnableVertexArrayAttrib. vao_call_cases; auto with gl_calls.
Qed.

Lemma glVertexArrayAttribFormat_extends
    (vaobj index size type normalized relativeoffset : N) (g : GL) :
  gl_extends g
    (glVertexArrayAttribFormat vaobj index size type normalized
       relativeoffset g).
Proof.
  unfold glVertexArrayAttribFormat. vao_call_cases; auto with gl_calls.
Qed.

Lemma glVertexArrayAttribBinding_extends (vaobj index binding : N) (g : GL) :
  gl_extends g (glVertexArrayAttribBinding vaobj index binding g).
Proof.
  unfold glVertexArrayAttribBinding. vao_call_cases; auto with gl_calls.
Qed.

Lemma glVertexArrayVertexBuffer_extends (vaobj idx buffer offs stride : N)
    (g : GL) :
  gl_extends g (glVertexArrayVertexBuffer vaobj idx buffer offs stride g).
Proof.
  unfold glVertexArrayVertexBuffer. vao_call_cases; auto with gl_calls.
Qed.

Lemma configure_attribute_extends (vao : N) (g : GL) (a : VertexAttribute) :
  gl_extends g (configure_attribute vao g a).
Proof.
  unfold configure_attribute.
  eapply gl_extends_trans; [apply glEnableVertexArrayAttrib_extends|].
  eapply gl_extends_trans; [apply glVertexArrayAttribFormat_extends|].
  apply glVertexArrayAttribBinding_extends.
Qed.

Lemma configure_attributes_extends (vao : N) (attrs : list VertexAttribute)
    (g : GL) :
  gl_extends g (fold_left (configure_attribute vao) attrs g).
Proof.
  revert g. induction attrs as [|a attrs IH]; intros g; simpl.
  - apply gl_extends_refl.
  - eapply gl_extends_trans; [apply configure_attribute_extends|apply IH].
Qed.

Lemma vao_update_found (vaobj : N) (f : VAO -> VAO) (g : GL) (v : VAO) :
  gl_vaos g !! vaobj = Some v ->
  gl_vaos (vao_update vaobj f g) !! vaobj = Some (f v).
Proof.
  intros Hv. unfold vao_update. rewrite Hv. simpl. apply lookup_insert_eq.
Qed.

Lemma vao_update_limits (vaobj : N) (f : VAO -> VAO) (g : GL) :
  gl_limits (vao_update vaobj f g) = gl_limits g.
Proof. apply gl_extends_update. Qed.

(** One round of the attribute loop for an attribute GL accepts, on a
    vertex array that exists. *)
Lemma configure_attribute_vao (vao : N) (g : GL) (a : VertexAttribute)
    (v : VAO) :
  gl_vaos g !! vao = Some v ->
  attribute_accepted (gl_limits g) a = true ->
  0 < max_vertex_attrib_bindings (gl_limits g) ->
  gl_vaos (configure_attribute vao g a) !! vao =
    Some {| vao_buffers := vao_buffers v;
            vao_enabled := {[ attribute_slot a ]} ∪ vao_enabled v;
            vao_formats :=
              <[attribute_slot a := attribute_format a]> (vao_formats v);
            vao_attrib_binding :=
              <[attribute_slot a := 0]> (vao_attrib_binding v) |}.
Proof.
  intros Hv Hacc Hbind.
  apply andb_true_iff in Hacc as [Hslot Hfmt].
  apply N.ltb_lt in Hslot. apply bool_decide_eq_true_1 in Hfmt.
  assert (Hs : (max_vertex_attribs (gl_limits g) <=? attribute_slot a)
               = false) by (apply N.leb_gt; exact Hslot).
  assert (Hb : (max_vertex_attrib_bindings (gl_limits g) <=? 0) = false)
    by (apply N.leb_gt; exact Hbind).
  unfold configure_attribute.
  unfold glEnableVertexArrayAttrib at 1. rewrite Hs.
  set (g1 := vao_update vao _ g).
  assert (Hl1 : gl_limits g1 = gl_limits g) by apply vao_update_limits.
  unfold glVertexArrayAttribFormat at 1. rewrite Hl1, Hfmt.
  set (g2 := vao_update vao _ g1).
  assert (Hl2 : gl_limits g2 = gl_limits g)
    by (subst g2; now rewrite vao_update_limits).
  unfold glVertexArrayAttribBinding. rewrite Hl2, Hs, Hb. simpl.
  subst g2 g1.
  rewrite (vao_update_found _ _ _ _
             (vao_update_found _ _ _ _ (vao_update_found _ _ _ _ Hv))).
  reflexivity.
Qed.

(** The whole loop over attributes GL accepts: every listed slot is
    enabled and attached to binding 0, no other slot is touched, and a
    slot listed once has the format of its attribute. *)
Lemma configure_attributes_vao (vao : N) (attrs : list VertexAttribute) :
  forall (g : GL) (v : VAO),
    gl_vaos g !! vao = Some v ->
    forallb (attribute_accepted (gl_limits g)) attrs = true ->
    0 < max_vertex_attrib_bindings (gl_limits g) ->
    exists v',
      gl_vaos (fold_left (configure_attribute vao) attrs g) !! vao = Some v'
      /\ vao_buffers v' = vao_buffers v
      /\ (forall s, s ∈ vao_enabled v' <->
                    In s (map attribute_slot attrs) \/ s ∈ vao_enabled v)
      /\ (forall s, ~ In s (map attribute_slot attrs) ->
                    vao_formats v' !! s = vao_formats v !! s
                    /\ vao_attrib_binding v' !! s = vao_attrib_binding v !! s)
      /\ (forall a, In a attrs ->
                    vao_attrib_binding v' !! attribute_slot a = Some 0)
      /\ (List.NoDup (map attribute_slot attrs) ->
          forall a, In a attrs ->
                    vao_formats v' !! attribute_slot a =
                      Some (attribute_format a)).
Proof.
  induction attrs as [|a attrs IH]; intros g v Hv Hacc Hbind; simpl.
  - exists v. repeat split; auto; try tauto; intuition.
  - simpl in Hacc. apply andb_true_iff in Hacc as [Ha Hacc].
    assert (Hl : gl_limits (configure_attribute vao g a) = gl_limits g)
      by apply configure_attribute_extends.
    destruct (IH _ _ (configure_attribute_vao vao g a v Hv Ha Hbind))
      as (v' & Hv' & Hbuf & Hen & Hother & Hbound & Hfmt);
      [now rewrite Hl|now rewrite Hl|].
    exists v'. split; [exact Hv'|]. split; [exact Hbuf|]. simpl in *.
    split; [|split; [|split]].
    + intros s. rewrite Hen, elem_of_union, elem_of_singleton. intuition.
    + intros s Hs.
      destruct (Hother s) as [Hf Hb]; [tauto|].
      rewrite Hf, Hb, !lookup_insert_ne by tauto. auto.
    + intros b [<-|Hb]; [|now apply Hbound].
      destruct (in_dec N.eq_dec (attribute_slot a) (map attribute_slot attrs))
        as [Hin|Hout].
      * apply in_map_iff in Hin as (c & Hc & Hin). rewrite <- Hc.
        now apply Hbound.
      * destruct (Hother _ Hout) as [_ ->]. apply lookup_insert_eq.
    + intros Hnd b [<-|Hb].
      * apply List.NoDup_cons_iff in Hnd as [Hout _].
        destruct (Hother _ Hout) as [-> _]. apply lookup_insert_eq.
      * apply List.NoDup_cons_iff in Hnd as [_ Hnd]. now apply Hfmt.
Qed.

(** The GL state [init] leaves, spelled out call by call. *)
Lemma init_gl {T} `{VertexLayout T} (chunk_radius : N)
    (attrs : list VertexAttribute) (m : Machine) :
  let vbo := N.succ (gl_names (gl m)) in
  let cmd := N.succ vbo in
  let vao := N.succ cmd in
  let size := wrap32 (size_mul sizeofT kMaxBatchSize) in
  let g3 := snd (glCreateVertexArrays
                   (snd (glCreateBuffers (snd (glCreateBuffers (gl m)))))) in
  this (machine_of (init chunk_radius attrs m)) =
    {| m_vao := vao; m_vertex_data_vbo := vbo; m_draw_command_vbo := cmd;
       m_data_size := size; m_vertex_count := 0; zIndex := 0%Z;
       data := N.succ (heap_top m) |}
  /\ gl (machine_of (init chunk_radius attrs m)) =
       fold_left (configure_attribute vao) attrs
         (glVertexArrayVertexBuffer vao 0 vbo 0 sizeof_Vertex3D
            (glNamedBufferStorage cmd (chunk_radius * chunk_radius)
               GL_DYNAMIC_DRAW
               (glNamedBufferStorage vbo size GL_DYNAMIC_STORAGE_BIT g3)))
  /\ heap (machine_of (init chunk_radius attrs m)) =
       <[N.succ (heap_top m) :=
           {| blk_size := size; blk_bytes := no_bytes |}]> (heap m)
  /\ heap_top (machine_of (init chunk_radius attrs m)) = N.succ (heap_top m)
  /\ log (machine_of (init chunk_radius attrs m)) = log m.
Proof. repeat split. Qed.

(** The three objects [init] creates, right after their creation. *)
Lemma init_created (g : GL) :
  let vbo := N.succ (gl_names g) in
  let g3 := snd (glCreateVertexArrays
                   (snd (glCreateBuffers (snd (glCreateBuffers g))))) in
  gl_buffers g3 !! vbo =
    Some {| buf_immutable := false; buf_flags := 0; buf_size := 0;
            buf_bytes := no_bytes |}
  /\ gl_buffers g3 !! N.succ vbo =
       Some {| buf_immutable := false; buf_flags := 0; buf_size := 0;
               buf_bytes := no_bytes |}
  /\ gl_vaos g3 !! N.succ (N.succ vbo) =
       Some {| vao_buffers := ∅; vao_enabled := ∅; vao_formats := ∅;
               vao_attrib_binding := ∅ |}
  /\ gl_limits g3 = gl_limits g.
Proof.
  simpl. split; [|split; [|split]].
  - rewrite lookup_insert_ne by lia. apply lookup_insert_eq.
  - apply lookup_insert_eq.
  - apply lookup_insert_eq.
  - reflexivity.
Qed.

(** What [init] has made of the command buffer and of the vertex array
    at its end, whatever the attributes. *)
Lemma init_objects {T} `{VertexLayout T} (chunk_radius : N)
    (attrs : list VertexAttribute) (m : Machine) :
  let m' := machine_of (init chunk_radius attrs m) in
  gl_buffers (gl m') !! m_draw_command_vbo (this m') =
    Some {| buf_immutable := false; buf_flags := 0; buf_size := 0;
            buf_bytes := no_bytes |}
  /\ In GL_INVALID_VALUE (gl_errors (gl m'))
  /\ is_Some (gl_vaos (gl m') !! m_vao (this m'))
  /\ gl_limits (gl m') = gl_limits (gl m).
Proof.
  intros m'. subst m'.
  destruct (init_gl chunk_radius attrs m) as (Hthis & Hgl & _).
  rewrite Hgl, Hthis. clear Hgl Hthis.
  cbv beta iota delta [m_vao m_vertex_data_vbo m_draw_command_vbo].
  destruct (init_created (gl m)) as (Hvbo & Hcmd & Hvao & Hlim).
  set (vbo := N.succ (gl_names (gl m))) in *.
  set (g3 := snd (glCreateVertexArrays _)) in *.
  set (size := wrap32 _).
  set (g4 := glNamedBufferStorage vbo size GL_DYNAMIC_STORAGE_BIT g3).
  assert (Hcmd4 : gl_buffers g4 !! N.succ vbo =
                    Some {| buf_immutable := false; buf_flags := 0;
                            buf_size := 0; buf_bytes := no_bytes |}).
  { subst g4. rewrite glNamedBufferStorage_other by lia. exact Hcmd. }
  rewrite (glNamedBufferStorage_usage_refused _ _ g4 _ Hcmd4 eq_refl).
  set (g5 := gl_fail GL_INVALID_VALUE g4).
  set (g6 := glVertexArrayVertexBuffer _ _ _ _ _ g5).
  assert (Hext : gl_extends g5 (fold_left
                                  (configure_attribute (N.succ (N.succ vbo)))
                                  attrs g6)).
  { eapply gl_extends_trans;
      [apply glVertexArrayVertexBuffer_extends
      |apply configure_attributes_extends]. }
  destruct Hext as (Hl & Hb & He & Hv).
  split; [rewrite Hb; exact Hcmd4|].
  split; [apply He; subst g5; simpl; rewrite in_app_iff; right; now left|].
  split.
  - apply Hv. subst g5. simpl. subst g4.
    rewrite glNamedBufferStorage_vaos, Hvao. eauto.
  - rewrite Hl. subst g5. simpl. subst g4.
    now rewrite glNamedBufferStorage_limits.
Qed.

(** ... and of the vertex array, when GL accepts the binding and every
    attribute. *)
Lemma init_vertex_array {T} `{VertexLayout T} (chunk_radius : N)
    (attrs : list VertexAttribute) (m : Machine) :
  let m' := machine_of (init chunk_radius attrs m) in
  binding_accepted (gl_limits (gl m)) = true ->
  forallb (attribute_accepted (gl_limits (gl m))) attrs = true ->
  exists v,
    gl_vaos (gl m') !! m_vao (this m') = Some v
    /\ vao_buffers v !! 0 =
         Some (m_vertex_data_vbo (this m'), 0, sizeof_Vertex3D)
    /\ (forall s, s ∈ vao_enabled v <-> In s (map attribute_slot attrs))
    /\ (forall a, In a attrs ->
                  vao_attrib_binding v !! attribute_slot a = Some 0)
    /\ (forall s, ~ In s (map attribute_slot attrs) ->
                  vao_formats v !! s = None
                  /\ vao_attrib_binding v !! s = None)
    /\ (List.NoDup (map attribute_slot attrs) ->
        forall a, In a attrs ->
                  vao_formats v !! attribute_slot a =
                    Some (attribute_format a)).
Proof.
  intros m' Hbinding Hacc. subst m'.
  apply andb_true_iff in Hbinding as [Hb0 Hstride].
  apply N.ltb_lt in Hb0. apply N.leb_le in Hstride.
  destruct (init_gl chunk_radius attrs m) as (Hthis & Hgl & _).
  rewrite Hgl, Hthis. clear Hgl Hthis.
  cbv beta iota delta [m_vao m_vertex_data_vbo m_draw_command_vbo].
  destruct (init_created (gl m)) as (Hvbo & Hcmd & Hvao & Hlim).
  set (vbo := N.succ (gl_names (gl m))) in *.
  set (g3 := snd (glCreateVertexArrays _)) in *.
  set (size := wrap32 _).
  set (g4 := glNamedBufferStorage vbo size GL_DYNAMIC_STORAGE_BIT g3).
  assert (Hcmd4 : gl_buffers g4 !! N.succ vbo =
                    Some {| buf_immutable := false; buf_flags := 0;
                            buf_size := 0; buf_bytes := no_bytes |}).
  { subst g4. rewrite glNamedBufferStorage_other by lia. exact Hcmd. }
  rewrite (glNamedBufferStorage_usage_refused _ _ g4 _ Hcmd4 eq_refl).
  assert (Hvbo4 : is_Some (gl_buffers g4 !! vbo)).
  { destruct (glNamedBufferStorage_dynamic vbo size g3 Hvbo) as (b & Hb & _).
    subst g4. rewrite Hb. eauto. }
  set (g5 := gl_fail GL_INVALID_VALUE g4) in *.
  assert (Hlim5 : gl_limits g5 = gl_limits (gl m)).
  { subst g5. simpl. subst g4. now rewrite glNamedBufferStorage_limits. }
  assert (Hvao5 : gl_vaos g5 !! N.succ (N.succ vbo)
                  = Some {| vao_buffers := ∅; vao_enabled := ∅;
                            vao_formats := ∅; vao_attrib_binding := ∅ |}).
  { subst g5. simpl. subst g4. rewrite glNamedBufferStorage_vaos. exact Hvao. }
  assert (Hg6 : glVertexArrayVertexBuffer (N.succ (N.succ vbo)) 0 vbo 0
                  sizeof_Vertex3D g5 =
                vao_update (N.succ (N.succ vbo))
                  (fun v =>
                     {| vao_buffers :=
                          <[0 := (vbo, 0, sizeof_Vertex3D)]> (vao_buffers v);
                        vao_enabled := vao_enabled v;
                        vao_formats := vao_formats v;
                        vao_attrib_binding := vao_attrib_binding v |}) g5).
  { unfold glVertexArrayVertexBuffer.
    replace (gl_buffers g5) with (gl_buffers g4) by reflexivity.
    rewrite (bool_decide_eq_true_2 _ Hvbo4), Hlim5.
    assert (H1 : (max_vertex_attrib_bindings (gl_limits (gl m)) <=? 0)
                 = false) by (apply N.leb_gt; exact Hb0).
    assert (H2 : (max_vertex_attrib_stride (gl_limits (gl m))
                  <? sizeof_Vertex3D) = false)
      by (apply N.ltb_ge; exact Hstride).
    rewrite H1, H2. simpl. now rewrite andb_false_r. }
  rewrite Hg6.
  pose proof (vao_update_found (N.succ (N.succ vbo))
                (fun v =>
                   {| vao_buffers :=
                        <[0 := (vbo, 0, sizeof_Vertex3D)]> (vao_buffers v);
                      vao_enabled := vao_enabled v;
                      vao_formats := vao_formats v;
                      vao_attrib_binding := vao_attrib_binding v |})
                g5 _ Hvao5) as Hvao6.
  destruct (configure_attributes_vao (N.succ (N.succ vbo)) attrs _ _ Hvao6)
    as (v & Hv & Hbuf & Hen & Hother & Hbind & Hfmt).
  { now rewrite vao_update_limits, Hlim5. }
  { now rewrite vao_update_limits, Hlim5. }
  exists v. split; [exact Hv|]. simpl in *.
  split; [rewrite Hbuf; apply lookup_insert_eq|].
  split; [intros s; rewrite Hen, elem_of_empty; tauto|].
  split; [exact Hbind|].
  split; [|exact Hfmt].
  intros s Hs. destruct (Hother s Hs) as [-> ->].
  rewrite !lookup_empty. auto.
Qed.

Section Init.

Context {T : Type} `{VertexLayout T}.

Variable chunk_radius : N.
Variable attrs : list VertexAttribute.

(** X1. [init], from whatever state: the call runs to its end and leaves a
    ready batch with no vertex pending, sort key 0 and a staging region
    of [sizeof(T) * kMaxBatchSize] bytes (as a [uint32]) none of which is
    written yet; the two buffer names differ and both name buffer
    objects, the array name names a vertex array; nothing is logged. *)
Theorem init_establishes_batch (m : Machine) :
  exists m',
    init chunk_radius attrs m = Completed m'
    /\ ready m' = true
    /\ m_vertex_count (this m') = 0
    /\ zIndex (this m') = 0%Z
    /\ m_data_size (this m') = wrap32 (size_mul sizeofT kMaxBatchSize)
    /\ data (this m') <> nullptr
    /\ heap m' !! data (this m') =
         Some {| blk_size := m_data_size (this m'); blk_bytes := no_bytes |}
    /\ m_vertex_data_vbo (this m') <> m_draw_command_vbo (this m')
    /\ is_Some (gl_buffers (gl m') !! m_vertex_data_vbo (this m'))
    /\ is_Some (gl_buffers (gl m') !! m_draw_command_vbo (this m'))
    /\ is_Some (gl_vaos (gl m') !! m_vao (this m'))
    /\ log m' = log m.
Proof.
  exists (machine_of (init chunk_radius attrs m)).
  destruct (init_ready chunk_radius attrs m) as (Hready & Hcount & Hsize).
  destruct (init_gl chunk_radius attrs m) as (Hthis & _ & Hheap & _ & Hlog).
  destruct (init_objects chunk_radius attrs m) as (Hcmd & _ & Hv & _).
  split; [reflexivity|]. split; [exact Hready|]. split; [exact Hcount|].
  split; [now rewrite Hthis|]. split; [exact Hsize|].
  split; [rewrite Hthis; simpl; unfold nullptr; lia|].
  split; [rewrite Hheap, Hthis; simpl; apply lookup_insert_eq|].
  split; [rewrite Hthis; simpl; lia|].
  split.
  { apply ready_spec in Hready as (_ & buf & _ & _ & Hbuf & _). eauto. }
  split; [rewrite Hcmd; eauto|].
  split; [exact Hv|exact Hlog].
Qed.

(** X2. The command buffer gets no store.  [init] asks for it with
    [GL_DYNAMIC_DRAW], a usage hint of [glBufferData], where
    [glNamedBufferStorage] expects storage flags; GL refuses the request
    with [GL_INVALID_VALUE], whatever the chunk radius, and
    [m_draw_command_vbo] stays a buffer object of zero bytes. *)
Theorem init_command_buffer_without_store (m : Machine) :
  exists buf,
    gl_buffers (gl (machine_of (init chunk_radius attrs m)))
      !! m_draw_command_vbo (this (machine_of (init chunk_radius attrs m)))
      = Some buf
    /\ buf_size buf = 0
    /\ buf_immutable buf = false
    /\ In GL_INVALID_VALUE
         (gl_errors (gl (machine_of (init chunk_radius attrs m)))).
Proof.
  destruct (init_objects chunk_radius attrs m) as (Hcmd & Herr & _).
  eexists. split; [exact Hcmd|]. auto.
Qed.

(** X3. The vertex array [init] configures, when the limits of the GL
    admit binding point 0 with a stride of [sizeof(Vertex3D)], GL
    accepts every attribute (slot below [GL_MAX_VERTEX_ATTRIBS]; a known
    component count and type in an allowed combination, not normalized;
    offset within [GL_MAX_VERTEX_ATTRIB_RELATIVE_OFFSET]) and no slot is
    listed twice: binding 0 is the vertex buffer from offset 0 with that
    stride; the enabled slots are exactly the listed ones, each attached
    to binding 0 with the element count, type and offset of its
    attribute, not normalized; no other slot has a format or a
    binding. *)
Theorem init_configures_vertex_array (m : Machine) :
  binding_accepted (gl_limits (gl m)) = true ->
  forallb (attribute_accepted (gl_limits (gl m))) attrs = true ->
  List.NoDup (map attribute_slot attrs) ->
  exists v,
    gl_vaos (gl (machine_of (init chunk_radius attrs m)))
      !! m_vao (this (machine_of (init chunk_radius attrs m))) = Some v
    /\ vao_buffers v !! 0 =
         Some (m_vertex_data_vbo (this (machine_of (init chunk_radius attrs m))),
               0, sizeof_Vertex3D)
    /\ (forall s, s ∈ vao_enabled v <-> In s (map attribute_slot attrs))
    /\ (forall a, In a attrs ->
                  vao_attrib_binding v !! attribute_slot a = Some 0
                  /\ vao_formats v !! attribute_slot a =
                       Some (attribute_format a))
    /\ (forall s, ~ In s (map attribute_slot attrs) ->
                  vao_formats v !! s = None
                  /\ vao_attrib_binding v !! s = None).
Proof.
  intros Hbinding Hacc Hnd.
  destruct (init_vertex_array chunk_radius attrs m Hbinding Hacc)
    as (v & Hv & Hbuf & Hen & Hbind & Hother & Hfmt).
  exists v. repeat split; auto; try (now apply Hen); try (now apply Hother).
Qed.

Lemma init_heap_bounded (m : Machine) :
  heap_bounded m -> heap_bounded (machine_of (init chunk_radius attrs m)).
Proof.
  intros Hbound p Hp.
  destruct (init_gl chunk_radius attrs m) as (_ & _ & Hheap & Htop & _).
  rewrite Htop. rewrite Hheap in Hp.
  destruct (decide (p = N.succ (heap_top m))) as [->|Hne]; [lia|].
  rewrite lookup_insert_ne in Hp by auto.
  apply Hbound in Hp. lia.
Qed.

(** X4. [init] on a batch that already has its staging region does not
    release it: the old block stays allocated, and no member holds its
    address any more. *)
Theorem init_again_leaks_staging (m : Machine) (blk : Block) :
  heap_bounded m ->
  heap m !! data (this m) = Some blk ->
  data (this (machine_of (init chunk_radius attrs m))) <> data (this m)
  /\ heap (machine_of (init chunk_radius attrs m)) !! data (this m) = Some blk
  /\ heap_bounded (machine_of (init chunk_radius attrs m)).
Proof.
  intros Hbound Hblk.
  destruct (init_gl chunk_radius attrs m) as (Hthis & _ & Hheap & Htop & _).
  assert (Hold : data (this m) <= heap_top m) by (apply Hbound; eauto).
  split; [rewrite Hthis; simpl; lia|]. split.
  - rewrite Hheap, lookup_insert_ne by lia. exact Hblk.
  - now apply init_heap_bounded.
Qed.

End Init.

Lemma static_machine_heap_bounded : heap_bounded static_machine.
Proof. intros p [blk Hp]. vm_compute in Hp. discriminate. Qed.

Lemma init_configures_vertex_array_witness :
  exists v,
    gl_vaos (gl initialized_machine) !! m_vao (this initialized_machine)
      = Some v
    /\ vao_buffers v !! 0 =
         Some (m_vertex_data_vbo (this initialized_machine), 0,
               sizeof_Vertex3D)
    /\ (forall s, s ∈ vao_enabled v <->
                  In s (map attribute_slot sample_attributes))
    /\ (forall a, In a sample_attributes ->
                  vao_attrib_binding v !! attribute_slot a = Some 0
                  /\ vao_formats v !! attribute_slot a =
                       Some (attribute_format a))
    /\ (forall s, ~ In s (map attribute_slot sample_attributes) ->
                  vao_formats v !! s = None
                  /\ vao_attrib_binding v !! s = None).
Proof.
  apply (init_configures_vertex_array (T := Vertex3D) 16 sample_attributes
           static_machine).
  - reflexivity.
  - reflexivity.
  - simpl. repeat constructor; simpl; intuition discriminate.
Defined.

Lemma init_again_leaks_staging_witness :
  data (this (machine_of
                (init (T := Vertex3D) 16 sample_attributes
                   initialized_machine)))
    <> data (this initialized_machine)
  /\ heap (machine_of
             (init (T := Vertex3D) 16 sample_attributes initialized_machine))
       !! data (this initialized_machine) =
       Some {| blk_size := 280000000; blk_bytes := no_bytes |}
  /\ heap_bounded
       (machine_of
          (init (T := Vertex3D) 16 sample_attributes initialized_machine)).
Proof.
  apply (init_again_leaks_staging (T := Vertex3D) 16 sample_attributes
           initialized_machine).
  - apply (init_heap_bounded (T := Vertex3D) 16 sample_attributes
             static_machine).
    apply static_machine_heap_bounded.
  - vm_compute. reflexivity.
Defined.

(** ** The bulk overload and the vertex buffer *)

Lemma glNamedBufferSubData_accepted (buffer off size : N) (blk : Block)
    (g : GL) (b : GLBuffer) :
  gl_buffers g !! buffer = Some b ->
  buffer_updatable b = true ->
  off + size <= buf_size b ->
  size <= blk_size blk ->
  exists g' b',
    glNamedBufferSubData buffer off size (Some blk) g = GLdone g'
    /\ gl_buffers g' !! buffer = Some b'
    /\ (forall a, off <= a -> a < off + size ->
                  buf_bytes b' a = blk_bytes blk (a - off))
    /\ (forall a, a < off \/ off + size <= a ->
                  buf_bytes b' a = buf_bytes b a)
    /\ gl_errors g' = gl_errors g.
Proof.
  intros Hb Hup Hfit Hsrc. unfold glNamedBufferSubData.
  rewrite Hb, Hup. simpl.
  destruct (buf_size b <? off + size) eqn:Hrange.
  { apply N.ltb_lt in Hrange. lia. }
  destruct (size =? 0) eqn:Hzero.
  - apply N.eqb_eq in Hzero. exists g, b.
    repeat split; auto. intros a Hlo Hhi. lia.
  - destruct (blk_size blk <? size) eqn:Hshort.
    { apply N.ltb_lt in Hshort. lia. }
    eexists. eexists. split; [reflexivity|]. simpl.
    rewrite lookup_insert_eq. split; [reflexivity|]. simpl.
    repeat split.
    + intros a Hlo Hhi. now apply copy_bytes_inside.
    + intros a Hout. now apply copy_bytes_outside.
Qed.

Lemma glNamedBufferSubData_refused (buffer off size : N) (src : option Block)
    (g : GL) (b : GLBuffer) :
  gl_buffers g !! buffer = Some b ->
  buffer_updatable b = true ->
  buf_size b < off + size ->
  glNamedBufferSubData buffer off size src g =
    GLdone (gl_fail GL_INVALID_VALUE g).
Proof.
  intros Hb Hup Hrange. unfold glNamedBufferSubData.
  rewrite Hb, Hup. simpl.
  apply N.ltb_lt in Hrange. now rewrite Hrange.
Qed.

Lemma glNamedBufferSubData_overrun (buffer off size : N) (blk : Block)
    (g : GL) (b : GLBuffer) :
  gl_buffers g !! buffer = Some b ->
  buffer_updatable b = true ->
  off + size <= buf_size b ->
  0 < size ->
  blk_size blk < size ->
  glNamedBufferSubData buffer off size (Some blk) g = GLfault OutOfBounds.
Proof.
  intros Hb Hup Hfit Hpos Hshort. unfold glNamedBufferSubData.
  rewrite Hb, Hup. simpl.
  destruct (buf_size b <? off + size) eqn:Hrange.
  { apply N.ltb_lt in Hrange. lia. }
  destruct (size =? 0) eqn:Hzero.
  { apply N.eqb_eq in Hzero. lia. }
  apply N.ltb_lt in Hshort. now rewrite Hshort.
Qed.

Lemma read_bytes_image (mem : Bytes) (off : N) (l : list byte) :
  (forall k : nat, (k < length l)%nat ->
                   mem (off + N.of_nat k) = nth_error l k) ->
  read_bytes mem off (N.of_nat (length l)) = map Some l.
Proof.
  intros Himg. unfold read_bytes. rewrite Nat2N.id.
  apply nth_error_ext. intros i.
  rewrite !nth_error_map.
  destruct (Nat.lt_ge_cases i (length l)) as [Hlt|Hge].
  - rewrite nth_error_seq.
    destruct (Nat.ltb_spec i (length l)) as [_|?]; [|lia]. simpl.
    rewrite Himg by lia.
    destruct (nth_error l i) eqn:Hn; [reflexivity|].
    apply nth_error_None in Hn. lia.
  - rewrite (proj2 (nth_error_None _ _)) by (rewrite length_seq; lia).
    now rewrite (proj2 (nth_error_None l i)) by lia.
Qed.

(** On a ready batch, a bulk [AddVertex] that runs to its end and whose
    upload GL accepts (no error is raised) adds exactly [vertex_amount],
    a [uint32] argument, to the count: an accepted range ends within the
    [m_data_size] bytes of the vertex buffer, so the sum does not
    wrap. *)
Lemma AddVertex_array_accepted_count {T} `{VertexLayout T} (array : list T)
    (vertex_amount : N) (m m' : Machine) :
  ready m = true ->
  vertex_amount < 2 ^ 32 ->
  AddVertex_array array vertex_amount m = Completed m' ->
  gl_errors (gl m') = gl_errors (gl m) ->
  m_vertex_count (this m') = m_vertex_count (this m) + vertex_amount.
Proof.
  intros Hready Hamount Hadd Herr.
  apply ready_spec in Hready as (blk & buf & _ & _ & Hbuf & _ & Hu32 & _ & Hsz).
  apply AddVertex_array_Completed in Hadd as (g & Hroom & Hsub & ->).
  simpl in *.
  assert (Hoff : size_mul (m_vertex_count (this m)) sizeof_Vertex3D
                 = m_vertex_count (this m) * 28).
  { unfold size_mul, sizeof_Vertex3D. apply wrap64_small.
    unfold kMaxBatchSize in Hroom. change (2 ^ 64) with 18446744073709551616.
    lia. }
  assert (Hlen : size_mul vertex_amount sizeof_Vertex3D = vertex_amount * 28).
  { unfold size_mul, sizeof_Vertex3D. apply wrap64_small.
    change (2 ^ 32) with 4294967296 in Hamount.
    change (2 ^ 64) with 18446744073709551616. lia. }
  rewrite Hoff, Hlen in Hsub.
  change (2 ^ 32) with 4294967296 in *.
  apply glNamedBufferSubData_GLdone in Hsub
    as [[e ->]|[[Hzero ->]|(b & src & _ & Hb & Hrange & _ & ->)]].
  - simpl in Herr. apply (f_equal (@length _)) in Herr.
    rewrite length_app in Herr. simpl in Herr. lia.
  - apply wrap32_small. unfold kMaxBatchSize in Hroom.
    change (2 ^ 32) with 4294967296. lia.
  - rewrite Hbuf in Hb. injection Hb as <-.
    apply wrap32_small. change (2 ^ 32) with 4294967296. lia.
Qed.

Section Upload.

Context {T : Type} `{VertexLayout T}.

Lemma length_encode (v : T) : length (encode v) = N.to_nat sizeofT.
Proof. rewrite <- (encode_length v). now rewrite Nat2N.id. Qed.

Lemma length_array_image (array : list T) :
  N.of_nat (length (concat (map encode array))) =
  sizeofT * N.of_nat (length array).
Proof.
  induction array as [|v array IH]; simpl; [lia|].
  rewrite length_app, Nat2N.inj_add, IH, encode_length. lia.
Qed.

(** Byte [k] of element [i] of the array, in the image of the array. *)
Lemma nth_error_array_image (array : list T) :
  forall (i : nat) (v : T) (k : nat),
    array !! i = Some v ->
    (k < N.to_nat sizeofT)%nat ->
    nth_error (concat (map encode array)) (i * N.to_nat sizeofT + k) =
    nth_error (encode v) k.
Proof.
  induction array as [|w array IH]; intros i v k Hi Hk; [discriminate|].
  destruct i as [|i]; simpl in *.
  - injection Hi as ->. apply nth_error_app1. now rewrite length_encode.
  - rewrite nth_error_app2 by (rewrite length_encode; lia).
    rewrite length_encode.
    replace (N.to_nat sizeofT + i * N.to_nat sizeofT + k - N.to_nat sizeofT)%nat
      with (i * N.to_nat sizeofT + k)%nat by lia.
    now apply IH.
Qed.

(** X5. A bulk [AddVertex] that fits.  On a ready batch of a vertex type as
    large as [Vertex3D], with the full staging size, a call whose
    [vertex_amount] vertices fit under the capacity and lie in the array
    runs to its end without a GL error: the count goes up by
    [vertex_amount], record [m_vertex_count + i] of the vertex buffer
    holds the image of element [i] of the array, the records before are
    what they were, and heap and log are untouched. *)
Theorem AddVertex_array_uploads_in_order (array : list T) (vertex_amount : N)
    (m : Machine) :
  sizeofT = sizeof_Vertex3D ->
  ready m = true ->
  m_data_size (this m) = sizeofT * kMaxBatchSize ->
  m_vertex_count (this m) + vertex_amount <= kMaxBatchSize ->
  vertex_amount <= N.of_nat (length array) ->
  exists m',
    AddVertex_array array vertex_amount m = Completed m'
    /\ m_vertex_count (this m') = m_vertex_count (this m) + vertex_amount
    /\ gl_errors (gl m') = gl_errors (gl m)
    /\ heap m' = heap m
    /\ log m' = log m
    /\ (forall (i : nat) (v : T),
          N.of_nat i < vertex_amount ->
          array !! i = Some v ->
          gpu_slot (m_vertex_count (this m) + N.of_nat i) m' =
            Some (map Some (encode v)))
    /\ (forall j, j < m_vertex_count (this m) ->
                  gpu_slot (T := T) j m' = gpu_slot (T := T) j m).
Proof.
  intros Hsz Hready Hsize Hfit Hlen.
  pose proof (ready_not_null m Hready) as Hnull.
  apply ready_spec in Hready as (blk & buf & _ & _ & Hbuf & _ & _ & Hup & Hbsz).
  assert (Hk : kMaxBatchSize = 10000000) by reflexivity.
  assert (Hs : sizeof_Vertex3D = 28) by reflexivity.
  assert (Hoff : size_mul (m_vertex_count (this m)) sizeof_Vertex3D =
                 m_vertex_count (this m) * 28)
    by (apply size_mul_exact; [lia|reflexivity]).
  assert (Hlenb : size_mul vertex_amount sizeof_Vertex3D = vertex_amount * 28)
    by (apply size_mul_exact; [lia|reflexivity]).
  destruct (glNamedBufferSubData_accepted (m_vertex_data_vbo (this m))
              (m_vertex_count (this m) * 28) (vertex_amount * 28)
              (array_block array) (gl m) buf Hbuf Hup)
    as (g' & buf' & Hsub & Hbuf' & Hin & Hout & Herr).
  { lia. }
  { simpl. rewrite length_array_image. lia. }
  unfold AddVertex_array. rewrite Hnull.
  assert (Hroom : hasRoom (this m) = true) by (apply hasRoom_true; lia).
  rewrite Hroom, count_never_negative. simpl.
  rewrite Hoff, Hlenb, Hsub.
  eexists. split; [reflexivity|]. simpl.
  split; [apply wrap32_small; change (2 ^ 32) with 4294967296; lia|].
  split; [exact Herr|]. split; [reflexivity|]. split; [reflexivity|].
  unfold gpu_slot. simpl. rewrite Hbuf', Hbuf. split.
  - intros i v Hi Hv. f_equal.
    rewrite size_mul_exact; [|lia|rewrite Hsz; reflexivity].
    pose proof (read_bytes_image (buf_bytes buf')
                  ((m_vertex_count (this m) + N.of_nat i) * sizeofT)
                  (encode v)) as Hread.
    rewrite encode_length in Hread. apply Hread.
    intros k Hkl. rewrite length_encode in Hkl.
    rewrite Hin by (rewrite Hsz, Hs in *; lia). simpl.
    rewrite <- (nth_error_array_image array i v k Hv Hkl).
    f_equal. rewrite Hsz, Hs. lia.
  - intros j Hj. f_equal. apply read_bytes_ext. intros a Hlo Hhi.
    apply Hout. left.
    assert (Hj' : size_mul j sizeofT = j * 28)
      by (rewrite Hsz; apply size_mul_exact; [lia|reflexivity]).
    rewrite Hj', Hsz, Hs in *. lia.
Qed.

(** X6. A bulk [AddVertex] that does not fit.  On a ready batch within its
    capacity, a call whose vertices would end beyond the vertex buffer
    still runs to its end: GL refuses the upload with
    [GL_INVALID_VALUE], no buffer byte and no heap byte changes, and the
    count advances by [vertex_amount] (modulo 2^32) all the same. *)
Theorem AddVertex_array_refused_upload_counts (array : list T)
    (vertex_amount : N) (m : Machine) :
  ready m = true ->
  m_vertex_count (this m) <= kMaxBatchSize ->
  vertex_amount < 2 ^ 32 ->
  m_data_size (this m) <
    (m_vertex_count (this m) + vertex_amount) * sizeof_Vertex3D ->
  exists m',
    AddVertex_array array vertex_amount m = Completed m'
    /\ m_vertex_count (this m') =
         wrap32 (m_vertex_count (this m) + vertex_amount)
    /\ gl_buffers (gl m') = gl_buffers (gl m)
    /\ gl_errors (gl m') = gl_errors (gl m) ++ [GL_INVALID_VALUE]
    /\ heap m' = heap m
    /\ log m' = log m.
Proof.
  intros Hready Hcount Hamount Hover.
  pose proof (ready_not_null m Hready) as Hnull.
  apply ready_spec in Hready as (blk & buf & _ & _ & Hbuf & _ & _ & Hup & Hbsz).
  assert (Hk : kMaxBatchSize = 10000000) by reflexivity.
  assert (Hs : sizeof_Vertex3D = 28) by reflexivity.
  assert (Hoff : size_mul (m_vertex_count (this m)) sizeof_Vertex3D =
                 m_vertex_count (this m) * 28)
    by (apply size_mul_exact; [lia|reflexivity]).
  assert (Hlenb : size_mul vertex_amount sizeof_Vertex3D = vertex_amount * 28).
  { unfold size_mul. apply wrap64_small.
    change (2 ^ 32) with 4294967296 in Hamount.
    change (2 ^ 64) with 18446744073709551616. lia. }
  unfold AddVertex_array. rewrite Hnull.
  assert (Hroom : hasRoom (this m) = true) by (apply hasRoom_true; lia).
  rewrite Hroom, count_never_negative. simpl.
  rewrite Hoff, Hlenb.
  rewrite (glNamedBufferSubData_refused _ _ _ _ _ buf Hbuf Hup) by lia.
  eexists. split; [reflexivity|]. simpl. auto 10.
Qed.

(** X7. The bulk overload measures the array in [sizeof(Vertex3D)] whatever
    [T] is.  When the elements of the array are smaller than that, a
    call that fits the vertex buffer reads beyond the end of the array
    it was given. *)
Theorem AddVertex_array_reads_past_small_elements (array : list T)
    (vertex_amount : N) (m : Machine) :
  ready m = true ->
  m_vertex_count (this m) <= kMaxBatchSize ->
  0 < vertex_amount ->
  (m_vertex_count (this m) + vertex_amount) * sizeof_Vertex3D
    <= m_data_size (this m) ->
  sizeofT * N.of_nat (length array) < vertex_amount * sizeof_Vertex3D ->
  AddVertex_array array vertex_amount m = Fault OutOfBounds m.
Proof.
  intros Hready Hcount Hpos Hfit Hshort.
  pose proof (ready_not_null m Hready) as Hnull.
  apply ready_spec in Hready
    as (blk & buf & _ & _ & Hbuf & _ & Hu32 & Hup & Hbsz).
  assert (Hk : kMaxBatchSize = 10000000) by reflexivity.
  assert (Hs : sizeof_Vertex3D = 28) by reflexivity.
  change (2 ^ 32) with 4294967296 in Hu32.
  assert (Hoff : size_mul (m_vertex_count (this m)) sizeof_Vertex3D =
                 m_vertex_count (this m) * 28)
    by (apply size_mul_exact; [lia|reflexivity]).
  assert (Hlenb : size_mul vertex_amount sizeof_Vertex3D = vertex_amount * 28).
  { unfold size_mul. apply wrap64_small.
    change (2 ^ 64) with 18446744073709551616. lia. }
  unfold AddVertex_array. rewrite Hnull.
  assert (Hroom : hasRoom (this m) = true) by (apply hasRoom_true; lia).
  rewrite Hroom, count_never_negative. simpl.
  rewrite Hoff, Hlenb.
  rewrite (glNamedBufferSubData_overrun _ _ _ _ _ buf Hbuf Hup);
    [reflexivity|lia|lia|].
  simpl. rewrite length_array_image. lia.
Qed.

End Upload.

Lemma AddVertex_array_uploads_in_order_witness :
  exists m',
    AddVertex_array [sample_vertex 4; sample_vertex 5] 2 loaded_machine
      = Completed m'
    /\ m_vertex_count (this m') = m_vertex_count (this loaded_machine) + 2
    /\ gl_errors (gl m') = gl_errors (gl loaded_machine)
    /\ heap m' = heap loaded_machine
    /\ log m' = log loaded_machine
    /\ (forall (i : nat) (v : Vertex3D),
          N.of_nat i < 2 ->
          [sample_vertex 4; sample_vertex 5] !! i = Some v ->
          gpu_slot (m_vertex_count (this loaded_machine) + N.of_nat i) m' =
            Some (map Some (encode v)))
    /\ (forall j, j < m_vertex_count (this loaded_machine) ->
                  gpu_slot (T := Vertex3D) j m' =
                    gpu_slot (T := Vertex3D) j loaded_machine).
Proof.
  apply (AddVertex_array_uploads_in_order
           [sample_vertex 4; sample_vertex 5] 2 loaded_machine).
  - reflexivity.
  - vm_compute. reflexivity.
  - vm_compute. reflexivity.
  - vm_compute. discriminate.
  - vm_compute. discriminate.
Defined.

Lemma AddVertex_array_refused_upload_counts_witness :
  exists m',
    AddVertex_array [sample_vertex 4] (kMaxBatchSize + 1) initialized_machine
      = Completed m'
    /\ m_vertex_count (this m') =
         wrap32 (m_vertex_count (this initialized_machine)
                 + (kMaxBatchSize + 1))
    /\ gl_buffers (gl m') = gl_buffers (gl initialized_machine)
    /\ gl_errors (gl m') =
         gl_errors (gl initialized_machine) ++ [GL_INVALID_VALUE]
    /\ heap m' = heap initialized_machine
    /\ log m' = log initialized_machine.
Proof.
  apply (AddVertex_array_refused_upload_counts
           [sample_vertex 4] (kMaxBatchSize + 1) initialized_machine).
  - vm_compute. reflexivity.
  - vm_compute. discriminate.
  - vm_compute. reflexivity.
  - vm_compute. reflexivity.
Defined.

Lemma AddVertex_array_reads_past_small_elements_witness :
  @AddVertex_array ivec3 ivec3_layout
    [ {| ix := 1; iy := 2; iz := 3 |}; {| ix := 4; iy := 5; iz := 6 |} ] 2
    (machine_of (@init ivec3 ivec3_layout 16 [] static_machine))
  = Fault OutOfBounds
      (machine_of (@init ivec3 ivec3_layout 16 [] static_machine)).
Proof.
  apply (@AddVertex_array_reads_past_small_elements ivec3 ivec3_layout).
  - vm_compute. reflexivity.
  - vm_compute. discriminate.
  - vm_compute. reflexivity.
  - vm_compute. discriminate.
  - vm_compute. reflexivity.
Defined.

(** ** The single-vertex path *)

Section SinglePath.

Context {T : Type} `{VertexLayout T}.

(** X8. Past the capacity.  With [m_vertex_count > kMaxBatchSize] both
    overloads take the out-of-room return, whatever their arguments:
    members, heap and GL state are untouched, and on a batch with
    staging memory the log gains exactly the out-of-room message with
    the count and the capacity. *)
Theorem AddVertex_refused_past_capacity (vertex : T) (array : list T)
    (vertex_amount : N) (m : Machine) :
  kMaxBatchSize < m_vertex_count (this m) ->
  exists m',
    AddVertex vertex m = Aborted NoRoom m'
    /\ AddVertex_array array vertex_amount m = Aborted NoRoom m'
    /\ this m' = this m
    /\ heap m' = heap m
    /\ gl m' = gl m
    /\ (data (this m) <> nullptr ->
        log m' =
          log m ++
          [LoggerError "Batch ran out of room. I have %d/%d vertices.\n"
             [m_vertex_count (this m); kMaxBatchSize]]).
Proof.
  intros Hfull.
  assert (Hthis : this (after_null_check m) = this m)
    by (unfold after_null_check; destruct (_ =? _); reflexivity).
  assert (Hroom : hasRoom (this (after_null_check m)) = false).
  { rewrite Hthis. unfold hasRoom. apply N.leb_gt. exact Hfull. }
  unfold AddVertex, AddVertex_array. fold (after_null_check m).
  rewrite Hroom. simpl. eexists. split; [reflexivity|].
  split; [reflexivity|]. simpl. rewrite Hthis.
  unfold after_null_check.
  destruct (data (this m) =? nullptr) eqn:Hnull; simpl; repeat split.
  apply N.eqb_eq in Hnull. contradiction.
Qed.

(** What a run of completed single-vertex calls leaves alone. *)
Lemma AddVertex_each_frame (vs : list T) :
  forall m m' : Machine,
    AddVertex_each vs m = Some m' ->
    gl m' = gl m /\ log m' = log m
    /\ data (this m') = data (this m)
    /\ m_data_size (this m') = m_data_size (this m).
Proof.
  induction vs as [|v vs IH]; intros m m' Heach; simpl in Heach.
  - injection Heach as <-. auto.
  - destruct (AddVertex v m) as [m1| |] eqn:Hadd; try discriminate.
    destruct (IH _ _ Heach) as (-> & -> & -> & ->).
    apply AddVertex_Completed in Hadd as (blk & _ & _ & _ & _ & ->).
    auto.
Qed.

(** X9. Below the capacity the single-vertex path is safe.  On a ready batch
    with the full staging size, single-vertex calls that stay within
    [kMaxBatchSize] all run to their end: no early return, no invalid
    access, nothing logged, the GL state untouched, the batch still
    ready, and the count up by the number of calls. *)
Theorem AddVertex_each_within_capacity (vs : list T) (m : Machine) :
  ready m = true ->
  m_data_size (this m) = sizeofT * kMaxBatchSize ->
  m_vertex_count (this m) + N.of_nat (length vs) <= kMaxBatchSize ->
  exists m',
    AddVertex_each vs m = Some m'
    /\ ready m' = true
    /\ m_vertex_count (this m') =
         m_vertex_count (this m) + N.of_nat (length vs)
    /\ gl m' = gl m
    /\ log m' = log m.
Proof.
  intros Hready Hsize Hfit.
  destruct (AddVertex_each_runs vs m Hready Hsize Hfit) as [m' Heach].
  destruct (AddVertex_each_spec vs m m' Hready Heach) as (Hr & Hc & _).
  destruct (AddVertex_each_frame vs m m' Heach) as (Hgl & Hlog & _).
  exists m'. auto.
Qed.

(** The invariant of the single-vertex path. *)
Lemma call_within_capacity (c : Call (T := T)) (m : Machine) :
  on_single_path c = true ->
  0 < sizeofT ->
  ready m = true ->
  m_data_size (this m) = sizeofT * kMaxBatchSize ->
  m_vertex_count (this m) <= kMaxBatchSize ->
  ready (machine_of (call c m)) = true
  /\ m_data_size (this (machine_of (call c m))) = sizeofT * kMaxBatchSize
  /\ m_vertex_count (this (machine_of (call c m))) <= kMaxBatchSize.
Proof.
  intros Hc Hpos Hready Hsize Hcount.
  split; [apply call_ready; [intros ->; discriminate|exact Hready]|].
  destruct c as [v|a n| | | |]; try discriminate; simpl.
  - destruct (AddVertex_exits v m)
      as [[m' E]|[[m' E]|(f & m' & E)]]; rewrite E; simpl.
    + destruct (N.eq_dec (m_vertex_count (this m)) kMaxBatchSize) as [Hfull|Hne].
      { rewrite (AddVertex_at_capacity_overruns v m Hready Hsize Hpos Hfull)
          in E. discriminate. }
      apply AddVertex_Completed in E as (blk & _ & _ & _ & _ & ->).
      simpl. split; [exact Hsize|lia].
    + unfold AddVertex in E. rewrite (ready_not_null m Hready) in E.
      destruct (negb (hasRoom (this m)));
        [|rewrite count_never_negative in E;
          destruct (store_vertex _ _ _); discriminate].
      injection E as <-. auto.
    + unfold AddVertex in E. rewrite (ready_not_null m Hready) in E.
      destruct (negb (hasRoom (this m))); [discriminate|].
      rewrite count_never_negative in E.
      destruct (store_vertex _ _ _); [discriminate|].
      injection E as _ <-. auto.
  - unfold Draw. destruct (_ <=? 0); simpl; [auto|].
    split; [exact Hsize|]. unfold kMaxBatchSize. lia.
  - unfold ReloadData.
    destruct (glNamedBufferSubData _ _ _ _ _); simpl; auto.
  - split; [exact Hsize|]. unfold kMaxBatchSize. lia.
Qed.

(** X10. The capacity holds on the single-vertex path.  Start from a ready
    batch with the full staging size and at most [kMaxBatchSize]
    vertices, and make any calls other than the bulk [AddVertex] and
    [Free]: whenever the run stops, the count is at most
    [kMaxBatchSize].  (The call made at the capacity is not refused; it
    ends the run with the store past the staging block.) *)
Theorem run_single_path_within_capacity (cs : list (Call (T := T))) :
  forall m : Machine,
    forallb on_single_path cs = true ->
    0 < sizeofT ->
    ready m = true ->
    m_data_size (this m) = sizeofT * kMaxBatchSize ->
    m_vertex_count (this m) <= kMaxBatchSize ->
    m_vertex_count (this (machine_of (run cs m))) <= kMaxBatchSize
    /\ ready (machine_of (run cs m)) = true.
Proof.
  induction cs as [|c cs IH]; intros m Hcs Hpos Hready Hsize Hcount; simpl.
  - auto.
  - simpl in Hcs. apply andb_true_iff in Hcs as [Hc Hcs].
    destruct (call_within_capacity c m Hc Hpos Hready Hsize Hcount)
      as (Hr & Hs & Hn).
    destruct (call c m) as [m1|why m1|f m1]; simpl in *.
    + now apply IH.
    + now apply IH.
    + auto.
Qed.

End SinglePath.

Lemma AddVertex_refused_past_capacity_witness :
  exists m',
    AddVertex (sample_vertex 1) overfull_machine = Aborted NoRoom m'
    /\ AddVertex_array [sample_vertex 2] 1 overfull_machine
       = Aborted NoRoom m'
    /\ this m' = this overfull_machine
    /\ heap m' = heap overfull_machine
    /\ gl m' = gl overfull_machine
    /\ (data (this overfull_machine) <> nullptr ->
        log m' =
          log overfull_machine ++
          [LoggerError "Batch ran out of room. I have %d/%d vertices.\n"
             [m_vertex_count (this overfull_machine); kMaxBatchSize]]).
Proof.
  apply (AddVertex_refused_past_capacity (sample_vertex 1)
           [sample_vertex 2] 1 overfull_machine).
  vm_compute. reflexivity.
Defined.

Lemma AddVertex_each_within_capacity_witness :
  exists m',
    AddVertex_each [sample_vertex 4; sample_vertex 5] loaded_machine = Some m'
    /\ ready m' = true
    /\ m_vertex_count (this m') =
         m_vertex_count (this loaded_machine)
         + N.of_nat (length [sample_vertex 4; sample_vertex 5])
    /\ gl m' = gl loaded_machine
    /\ log m' = log loaded_machine.
Proof.
  apply (AddVertex_each_within_capacity
           [sample_vertex 4; sample_vertex 5] loaded_machine).
  - vm_compute. reflexivity.
  - vm_compute. reflexivity.
  - vm_compute. discriminate.
Defined.

Lemma run_single_path_within_capacity_witness :
  m_vertex_count
    (this (machine_of
             (run [CallAddVertex (sample_vertex 4); CallReloadData; CallDraw;
                   CallAddVertex (sample_vertex 5)] loaded_machine)))
    <= kMaxBatchSize
  /\ ready (machine_of
              (run [CallAddVertex (sample_vertex 4); CallReloadData; CallDraw;
                    CallAddVertex (sample_vertex 5)] loaded_machine)) = true.
Proof.
  apply (run_single_path_within_capacity
           [CallAddVertex (sample_vertex 4); CallReloadData; CallDraw;
            CallAddVertex (sample_vertex 5)] loaded_machine).
  - reflexivity.
  - reflexivity.
  - vm_compute. reflexivity.
  - vm_compute. reflexivity.
  - vm_compute. discriminate.
Defined.

(** ** How the member functions compose *)

(** [ReloadData] on a ready batch, in terms of the GL state it leaves. *)
Lemma ReloadData_ready_result (m : Machine) :
  ready m = true ->
  exists g' blk buf',
    ReloadData m = Completed (with_gl g' m)
    /\ deref (data (this m)) m = Some blk
    /\ gl_buffers g' !! m_vertex_data_vbo (this m) = Some buf'
    /\ (forall a, a < m_data_size (this m) ->
                  buf_bytes buf' a = blk_bytes blk a)
    /\ gl_draws g' = gl_draws (gl m)
    /\ gl_vaos g' = gl_vaos (gl m)
    /\ gl_bound_vao g' = gl_bound_vao (gl m).
Proof.
  intros Hready.
  pose proof (ready_not_null m Hready) as Hnull.
  apply ready_spec in Hready
    as (blk & buf & _ & Hblk & Hbuf & Hsz & _ & Hup & Hbsz).
  assert (Hderef : deref (data (this m)) m = Some blk)
    by (unfold deref; now rewrite Hnull).
  destruct (glNamedBufferSubData_accepted (m_vertex_data_vbo (this m)) 0
              (m_data_size (this m)) blk (gl m) buf Hbuf Hup)
    as (g' & buf' & Hsub & Hbuf' & Hin & _ & _); [lia|lia|].
  destruct (glNamedBufferSubData_frame _ _ _ _ _ _ Hsub)
    as (_ & Hvaos & Hdraws & Hbound).
  exists g', blk, buf'. unfold ReloadData. rewrite Hderef, Hsub.
  repeat split; auto.
  intros a Ha. rewrite Hin by lia. f_equal. lia.
Qed.

Section Compose.

Context {T : Type} `{VertexLayout T}.

(** Every record a completed single-vertex call wrote lies inside the
    staging region. *)
Lemma AddVertex_each_fits (vs : list T) :
  forall m m' : Machine,
    ready m = true ->
    AddVertex_each vs m = Some m' ->
    forall i : nat,
      (i < length vs)%nat ->
      size_mul (m_vertex_count (this m) + N.of_nat i) sizeofT + sizeofT
        <= m_data_size (this m).
Proof.
  induction vs as [|v vs IH]; intros m m' Hready Heach i Hi; simpl in *;
    [lia|].
  destruct (AddVertex v m) as [m1| |] eqn:Hadd; try discriminate.
  pose proof (AddVertex_ready v m Hready) as Hready1.
  rewrite Hadd in Hready1. simpl in Hready1.
  pose proof (AddVertex_count_succ v m m1 Hadd) as Hcount.
  pose proof Hready as Hr.
  apply ready_spec in Hr as (blk0 & _ & _ & Hblk0 & _ & Hsz & _).
  pose proof Hadd as Hadd'.
  apply AddVertex_Completed in Hadd' as (blk & _ & _ & Hblk & Hfit & Hm1).
  rewrite Hblk0 in Hblk. injection Hblk as <-.
  destruct i as [|i].
  - rewrite N.add_0_r. lia.
  - specialize (IH m1 m' Hready1 Heach i ltac:(lia)).
    rewrite Hcount in IH.
    replace (m_vertex_count (this m) + N.of_nat (S i))
      with (m_vertex_count (this m) + 1 + N.of_nat i) by lia.
    subst m1. exact IH.
Qed.

(** Completed single-vertex calls, one at least, leave a count of at
    most [kMaxBatchSize + 1]: the last of them passed [hasRoom]. *)
Lemma AddVertex_each_count_bound (vs : list T) :
  forall m m' : Machine,
    AddVertex_each vs m = Some m' ->
    vs <> [] ->
    m_vertex_count (this m') <= kMaxBatchSize + 1.
Proof.
  induction vs as [|v vs IH]; intros m m' Heach Hne; [contradiction|].
  simpl in Heach.
  destruct (AddVertex v m) as [m1| |] eqn:Hadd; try discriminate.
  destruct vs as [|w ws].
  - injection Heach as <-.
    rewrite (AddVertex_count_succ v m m1 Hadd).
    apply AddVertex_Completed in Hadd as (blk & _ & Hroom & _). lia.
  - apply (IH m1 m' Heach). discriminate.
Qed.

(** X11. Accumulate, reload, draw.  After [n > 0] completed single-vertex
    calls on a ready batch with no vertex pending, [ReloadData] and then
    [Draw] both run to their end: the draw command issued covers [n]
    vertices, record [i] of the vertex buffer holds the image of the
    [i]-th vertex added, the count is back to zero and no vertex array
    stays bound. *)
Theorem accumulate_reload_draw (vs : list T) (m m1 : Machine) :
  ready m = true ->
  m_vertex_count (this m) = 0 ->
  AddVertex_each vs m = Some m1 ->
  vs <> [] ->
  exists m2 m3 vao,
    ReloadData m1 = Completed m2
    /\ Draw m2 = Completed m3
    /\ gl_draws (gl m3) =
         gl_draws (gl m) ++
         [ {| call_vao := vao; call_mode := GL_TRIANGLES; call_first := 0;
              call_count := Z.of_N (N.of_nat (length vs)) |} ]
    /\ (forall (i : nat) (v : T),
          vs !! i = Some v ->
          gpu_slot (N.of_nat i) m3 = Some (map Some (encode v)))
    /\ m_vertex_count (this m3) = 0
    /\ gl_bound_vao (gl m3) = 0.
Proof.
  intros Hready Hzero Heach Hne.
  destruct (AddVertex_each_spec vs m m1 Hready Heach)
    as (Hready1 & Hcount & Hslots & _).
  destruct (AddVertex_each_frame vs m m1 Heach) as (Hgl & _ & _ & Hsize).
  pose proof (AddVertex_each_fits vs m m1 Hready Heach) as Hfits.
  rewrite Hzero in *. rewrite N.add_0_l in Hcount.
  destruct (ReloadData_ready_result m1 Hready1)
    as (g' & blk & buf' & Hreload & Hderef & Hbuf' & Hbytes & Hdraws
        & _ & _).
  pose proof (AddVertex_each_count_bound vs m m1 Heach Hne) as Hbound.
  assert (Hpos : 0 < m_vertex_count (this (with_gl g' m1))).
  { simpl. rewrite Hcount. destruct vs; [contradiction|simpl; lia]. }
  destruct (Draw_pending (with_gl g' m1) Hpos)
    as (g & Hdraw & Hd1 & Hb1 & _ & Hunbound).
  simpl in Hd1, Hb1.
  rewrite to_GLsizei_small in Hd1
    by (unfold kMaxBatchSize in Hbound; change (2 ^ 31) with 2147483648; lia).
  exists (with_gl g' m1). eexists. eexists.
  split; [exact Hreload|].
  split; [exact Hdraw|]. simpl.
  split; [rewrite Hd1, Hdraws, Hgl, Hcount; reflexivity|].
  split.
  - intros i v Hi.
    specialize (Hslots i v Hi). rewrite N.add_0_l in Hslots.
    assert (Hlt : (i < length vs)%nat).
    { apply lookup_lt_Some in Hi. exact Hi. }
    specialize (Hfits i Hlt). rewrite N.add_0_l in Hfits.
    unfold staging_slot in Hslots. rewrite Hderef in Hslots.
    injection Hslots as Hslots. rewrite <- Hslots.
    unfold gpu_slot. simpl.
    rewrite Hb1, Hbuf'. f_equal. apply read_bytes_ext.
    intros a _ Ha. apply Hbytes. rewrite Hsize. lia.
  - split; [reflexivity|exact Hunbound].
Qed.

(** X12. [Draw] uploads nothing.  After completed single-vertex calls, a
    [Draw] without [ReloadData] leaves every GL buffer as it was before
    the first of those calls: the vertices are in the staging memory
    only, and the draw reads whatever the vertex buffer held. *)
Theorem Draw_without_ReloadData_is_stale (vs : list T) (m m1 : Machine) :
  AddVertex_each vs m = Some m1 ->
  gl_buffers (gl (machine_of (Draw m1))) = gl_buffers (gl m)
  /\ heap (machine_of (Draw m1)) = heap m1.
Proof.
  intros Heach.
  destruct (AddVertex_each_frame vs m m1 Heach) as (Hgl & _).
  destruct (N.eq_0_gt_0_cases (m_vertex_count (this m1))) as [Hzero|Hpos].
  - destruct (Draw_nothing_pending m1 Hzero) as (m' & -> & Hheap & Hsame).
    simpl. now rewrite Hsame, Hheap, Hgl.
  - destruct (Draw_pending m1 Hpos) as (g & -> & _ & Hbuf & _).
    simpl. now rewrite Hbuf, Hgl.
Qed.

(** X13. [ReloadData] after a bulk [AddVertex] undoes the upload.  On a ready
    batch, once a bulk call has run to its end, [ReloadData] makes the
    vertex buffer a copy of the staging region as it was before the bulk
    call; what the bulk call wrote into the buffer is gone. *)
Theorem ReloadData_overwrites_bulk_upload (array : list T)
    (vertex_amount : N) (m m1 : Machine) :
  ready m = true ->
  AddVertex_array array vertex_amount m = Completed m1 ->
  exists m2 blk buf,
    ReloadData m1 = Completed m2
    /\ deref (data (this m)) m = Some blk
    /\ gl_buffers (gl m2) !! m_vertex_data_vbo (this m) = Some buf
    /\ forall a, a < m_data_size (this m) ->
                 buf_bytes buf a = blk_bytes blk a.
Proof.
  intros Hready Hadd.
  pose proof (AddVertex_array_ready array vertex_amount m Hready) as Hready1.
  rewrite Hadd in Hready1. simpl in Hready1.
  destruct (ReloadData_ready_result m1 Hready1)
    as (g' & blk & buf' & Hreload & Hderef & Hbuf' & Hbytes & _).
  apply AddVertex_array_Completed in Hadd as (g & _ & _ & ->).
  assert (Hcheck : after_null_check m = m).
  { unfold after_null_check. now rewrite (ready_not_null m Hready). }
  rewrite Hcheck in *.
  eexists. exists blk, buf'. split; [exact Hreload|].
  split; [exact Hderef|]. split; [exact Hbuf'|exact Hbytes].
Qed.

(** X14. Refilling after a reset.  [Clear] leaves the staging bytes in place;
    when fewer vertices are added afterwards than the staging array held
    records, the records from the new count on (up to the capacity) are
    still those of the previous fill. *)
Theorem refill_keeps_tail (vs : list T) (m m' : Machine) :
  ready m = true ->
  AddVertex_each vs (Clear m) = Some m' ->
  forall j,
    N.of_nat (length vs) <= j -> j <= kMaxBatchSize ->
    staging_slot (T := T) j m' = staging_slot (T := T) j m.
Proof.
  intros Hready Heach.
  assert (Hgen :
    forall (ws : list T) (a b : Machine),
      ready a = true ->
      AddVertex_each ws a = Some b ->
      forall j, m_vertex_count (this a) + N.of_nat (length ws) <= j ->
                j <= kMaxBatchSize ->
                staging_slot (T := T) j b = staging_slot (T := T) j a).
  { induction ws as [|w ws IH]; intros a b Ha Hab j Hlo Hhi; simpl in Hab.
    - now injection Hab as <-.
    - destruct (AddVertex w a) as [a1| |] eqn:Hadd; try discriminate.
      pose proof (AddVertex_ready w a Ha) as Ha1.
      rewrite Hadd in Ha1. simpl in Ha1.
      pose proof (AddVertex_count_succ w a a1 Hadd) as Hcount.
      simpl length in Hlo.
      rewrite (IH a1 b Ha1 Hab j) by lia.
      pose proof (ready_not_null a Ha) as Hnull.
      apply ready_spec in Ha as (blk0 & _ & _ & Hblk0 & _ & Hsz & Hu32 & _).
      apply AddVertex_Completed in Hadd as (blk & _ & Hroom & Hblk & Hfit & ->).
      rewrite Hblk0 in Hblk. injection Hblk as <-.
      unfold staging_slot, deref. simpl. rewrite Hnull.
      rewrite lookup_insert_eq, Hblk0. simpl. f_equal.
      apply read_bytes_ext. intros x Hxlo Hxhi.
      apply write_bytes_outside. right.
      assert (Hs : sizeofT < 2 ^ 32) by lia.
      rewrite encode_length.
      rewrite (size_mul_exact (m_vertex_count (this a))) in * by lia.
      rewrite (size_mul_exact j) in * by lia. nia. }
  intros j Hlo Hhi.
  destruct (Clear_ready m Hready) as [Hrc Hzero].
  rewrite (Hgen vs (Clear m) m' Hrc Heach j) by (rewrite ?Hzero; lia).
  reflexivity.
Qed.

End Compose.

(** X15. [Draw] twice.  The first [Draw] on a batch with vertices pending
    issues its one draw command and resets the count, so a second [Draw]
    right after it is the empty case: it reports and changes nothing in
    the GL state.  One batch of vertices is drawn once. *)
Theorem Draw_twice_draws_once (m : Machine) :
  0 < m_vertex_count (this m) ->
  exists m1 m2,
    Draw m = Completed m1
    /\ Draw m1 = Aborted NothingToDraw m2
    /\ gl m2 = gl m1
    /\ length (gl_draws (gl m2)) = S (length (gl_draws (gl m))).
Proof.
  intros Hcount.
  destruct (Draw_pending m Hcount) as (g & Hdraw & Hdraws & _).
  eexists. eexists. split; [exact Hdraw|].
  split; [reflexivity|]. simpl. split; [reflexivity|].
  rewrite Hdraws, length_app. simpl. lia.
Qed.

(** X16. After [Free].  Freeing a ready batch leaves it not ready but keeps
    the count: [ReloadData] then copies nothing and changes nothing, and
    [Draw] still issues a draw of the vertices counted before, the count
    being in the range of [GLsizei] (below [2^31]). *)
Theorem Free_keeps_count_and_draws (m : Machine) :
  ready m = true ->
  0 < m_vertex_count (this m) ->
  m_vertex_count (this m) < 2 ^ 31 ->
  exists m1 m2 vao,
    Free m = Completed m1
    /\ ready m1 = false
    /\ m_vertex_count (this m1) = m_vertex_count (this m)
    /\ ReloadData m1 = Completed m1
    /\ Draw m1 = Completed m2
    /\ gl_draws (gl m2) =
         gl_draws (gl m) ++
         [ {| call_vao := vao; call_mode := GL_TRIANGLES; call_first := 0;
              call_count := Z.of_N (m_vertex_count (this m)) |} ].
Proof.
  intros Hready Hcount Hsmall.
  pose proof (ready_not_null m Hready) as Hnull.
  apply ready_spec in Hready
    as (blk & buf & _ & Hblk & Hbuf & _ & _ & Hup & _).
  unfold Free, AmoMemory_Free. rewrite Hnull, Hblk.
  set (m1 := with_this _ _).
  assert (Hpos : 0 < m_vertex_count (this m1)) by exact Hcount.
  destruct (Draw_pending m1 Hpos) as (g & Hdraw & Hdraws & _).
  rewrite to_GLsizei_small in Hdraws by exact Hsmall.
  exists m1. eexists. eexists. split; [reflexivity|].
  split; [reflexivity|]. split; [reflexivity|].
  split.
  { unfold ReloadData, glNamedBufferSubData. simpl.
    rewrite Hbuf, Hup. simpl.
    destruct (buf_size buf <? 0 + 0) eqn:Hneg; [|reflexivity].
    apply N.ltb_lt in Hneg. lia. }
  split; [exact Hdraw|]. exact Hdraws.
Qed.

Lemma accumulate_reload_draw_witness :
  exists m2 m3 vao,
    ReloadData loaded_machine = Completed m2
    /\ Draw m2 = Completed m3
    /\ gl_draws (gl m3) =
         gl_draws (gl initialized_machine) ++
         [ {| call_vao := vao; call_mode := GL_TRIANGLES; call_first := 0;
              call_count :=
                Z.of_N
                  (N.of_nat
                     (length
                        [sample_vertex 1; sample_vertex 2; sample_vertex 3]))
           |} ]
    /\ (forall (i : nat) (v : Vertex3D),
          [sample_vertex 1; sample_vertex 2; sample_vertex 3] !! i = Some v ->
          gpu_slot (T := Vertex3D) (N.of_nat i) m3 =
            Some (map Some (encode v)))
    /\ m_vertex_count (this m3) = 0
    /\ gl_bound_vao (gl m3) = 0.
Proof.
  apply (accumulate_reload_draw (T := Vertex3D)
           [sample_vertex 1; sample_vertex 2; sample_vertex 3]
           initialized_machine loaded_machine).
  - vm_compute. reflexivity.
  - vm_compute. reflexivity.
  - vm_compute. reflexivity.
  - discriminate.
Defined.

Lemma Draw_without_ReloadData_is_stale_witness :
  gl_buffers (gl (machine_of (Draw loaded_machine))) =
    gl_buffers (gl initialized_machine)
  /\ heap (machine_of (Draw loaded_machine)) = heap loaded_machine.
Proof.
  apply (Draw_without_ReloadData_is_stale (T := Vertex3D)
           [sample_vertex 1; sample_vertex 2; sample_vertex 3]
           initialized_machine loaded_machine).
  vm_compute. reflexivity.
Defined.

Lemma ReloadData_overwrites_bulk_upload_witness :
  exists m2 blk buf,
    ReloadData
      (machine_of
         (AddVertex_array [sample_vertex 4; sample_vertex 5] 2 loaded_machine))
      = Completed m2
    /\ deref (data (this loaded_machine)) loaded_machine = Some blk
    /\ gl_buffers (gl m2) !! m_vertex_data_vbo (this loaded_machine)
       = Some buf
    /\ forall a, a < m_data_size (this loaded_machine) ->
                 buf_bytes buf a = blk_bytes blk a.
Proof.
  apply (ReloadData_overwrites_bulk_upload (T := Vertex3D)
           [sample_vertex 4; sample_vertex 5] 2 loaded_machine).
  - vm_compute. reflexivity.
  - vm_compute. reflexivity.
Defined.

Lemma refill_keeps_tail_witness :
  staging_slot (T := Vertex3D) 2
    (machine_of (AddVertex (sample_vertex 7) (Clear loaded_machine)))
  = staging_slot (T := Vertex3D) 2 loaded_machine.
Proof.
  apply (refill_keeps_tail (T := Vertex3D) [sample_vertex 7] loaded_machine).
  - vm_compute. reflexivity.
  - vm_compute. reflexivity.
  - vm_compute. discriminate.
  - vm_compute. discriminate.
Defined.

Lemma Draw_twice_draws_once_witness :
  exists m1 m2,
    Draw loaded_machine = Completed m1
    /\ Draw m1 = Aborted NothingToDraw m2
    /\ gl m2 = gl m1
    /\ length (gl_draws (gl m2)) = S (length (gl_draws (gl loaded_machine))).
Proof. apply (Draw_twice_draws_once loaded_machine). reflexivity. Defined.

Lemma Free_keeps_count_and_draws_witness :
  exists m1 m2 vao,
    Free loaded_machine = Completed m1
    /\ ready m1 = false
    /\ m_vertex_count (this m1) = m_vertex_count (this loaded_machine)
    /\ ReloadData m1 = Completed m1
    /\ Draw m1 = Completed m2
    /\ gl_draws (gl m2) =
         gl_draws (gl loaded_machine) ++
         [ {| call_vao := vao; call_mode := GL_TRIANGLES; call_first := 0;
              call_count := Z.of_N (m_vertex_count (this loaded_machine)) |} ].
Proof.
  apply (Free_keeps_count_and_draws loaded_machine).
  - vm_compute. reflexivity.
  - reflexivity.
  - reflexivity.
Defined.

(** ** What no member function touches *)

Section Frame.

Context {T : Type} `{VertexLayout T}.

(** One call, however it ends: the sort key, the three handles and the
    vertex arrays of the GL state are what they were, and no block is
    added to the heap. *)
Lemma call_frame (c : Call (T := T)) (m : Machine) :
  zIndex (this (machine_of (call c m))) = zIndex (this m)
  /\ m_vao (this (machine_of (call c m))) = m_vao (this m)
  /\ m_vertex_data_vbo (this (machine_of (call c m))) =
       m_vertex_data_vbo (this m)
  /\ m_draw_command_vbo (this (machine_of (call c m))) =
       m_draw_command_vbo (this m)
  /\ gl_vaos (gl (machine_of (call c m))) = gl_vaos (gl m)
  /\ heap_top (machine_of (call c m)) = heap_top m
  /\ (forall p, is_Some (heap (machine_of (call c m)) !! p) ->
                is_Some (heap m !! p)).
Proof.
  assert (Hcheck :
    this (after_null_check m) = this m
    /\ gl (after_null_check m) = gl m
    /\ heap (after_null_check m) = heap m
    /\ heap_top (after_null_check m) = heap_top m).
  { unfold after_null_check. destruct (_ =? _); auto. }
  destruct Hcheck as (Hthis & Hgl & Hheap & Htop).
  destruct c as [v|a n| | | |]; simpl.
  - destruct (AddVertex_exits v m)
      as [[m' E]|[[m' E]|(f & m' & E)]]; rewrite E; simpl.
    + apply AddVertex_Completed in E as (blk & _ & _ & Hblk & _ & ->).
      simpl. repeat split; auto. intros p Hp.
      destruct (decide (p = data (this m))) as [->|Hne]; [eauto|].
      now rewrite lookup_insert_ne in Hp.
    + unfold AddVertex in E. fold (after_null_check m) in E.
      destruct (negb (hasRoom _));
        [|rewrite count_never_negative in E;
          destruct (store_vertex _ _ _); discriminate].
      injection E as <-. simpl. rewrite Hthis, Hgl, Hheap, Htop. auto 10.
    + unfold AddVertex in E. fold (after_null_check m) in E.
      destruct (negb (hasRoom _)); [discriminate|].
      rewrite count_never_negative in E.
      destruct (store_vertex _ _ _); [discriminate|].
      injection E as _ <-. rewrite Hthis, Hgl, Hheap, Htop. auto 10.
  - destruct (AddVertex_array_exits a n m)
      as [[m' E]|[[m' E]|(f & m' & E)]]; rewrite E; simpl.
    + apply AddVertex_array_Completed in E as (g & _ & Hsub & ->).
      apply glNamedBufferSubData_frame in Hsub as (_ & Hvaos & _).
      simpl. rewrite Hheap, Htop. auto 10.
    + unfold AddVertex_array in E. fold (after_null_check m) in E.
      destruct (negb (hasRoom _));
        [|rewrite count_never_negative in E;
          destruct (glNamedBufferSubData _ _ _ _ _); discriminate].
      injection E as <-. simpl. rewrite Hthis, Hgl, Hheap, Htop. auto 10.
    + unfold AddVertex_array in E. fold (after_null_check m) in E.
      destruct (negb (hasRoom _)); [discriminate|].
      rewrite count_never_negative in E.
      destruct (glNamedBufferSubData _ _ _ _ _); [discriminate|].
      injection E as _ <-. rewrite Hthis, Hgl, Hheap, Htop. auto 10.
  - destruct (N.eq_0_gt_0_cases (m_vertex_count (this m))) as [Hzero|Hpos].
    + unfold Draw. rewrite Hzero. simpl. auto 10.
    + destruct (Draw_pending m Hpos) as (g & -> & _ & _ & Hvaos & _).
      simpl. auto 10.
  - unfold ReloadData.
    destruct (glNamedBufferSubData _ _ _ _ _) as [g|f] eqn:Hsub; simpl;
      [|auto 10].
    apply glNamedBufferSubData_frame in Hsub as (_ & Hvaos & _). auto 10.
  - auto 10.
  - unfold Free, AmoMemory_Free.
    destruct (data (this m) =? nullptr); simpl; [auto 10|].
    destruct (heap m !! data (this m)) eqn:Hblk; simpl; [|auto 10].
    repeat split; auto. intros p Hp.
    destruct (decide (p = data (this m))) as [->|Hne]; [eauto|].
    now rewrite lookup_delete_ne in Hp.
Qed.

Lemma run_frame (cs : list (Call (T := T))) :
  forall m : Machine,
    zIndex (this (machine_of (run cs m))) = zIndex (this m)
    /\ m_vao (this (machine_of (run cs m))) = m_vao (this m)
    /\ m_vertex_data_vbo (this (machine_of (run cs m))) =
         m_vertex_data_vbo (this m)
    /\ m_draw_command_vbo (this (machine_of (run cs m))) =
         m_draw_command_vbo (this m)
    /\ gl_vaos (gl (machine_of (run cs m))) = gl_vaos (gl m)
    /\ (heap_bounded m -> heap_bounded (machine_of (run cs m))).
Proof.
  induction cs as [|c cs IH]; intros m; simpl.
  - auto 10.
  - destruct (call_frame c m) as (Hz & Ha & Hv & Hc & Hvaos & Htop & Hsub).
    assert (Hb : heap_bounded m -> heap_bounded (machine_of (call c m))).
    { intros Hbound p Hp. rewrite Htop. now apply Hbound, Hsub. }
    destruct (call c m) as [m1|why m1|f m1]; simpl in *.
    + destruct (IH m1) as (-> & -> & -> & -> & -> & Hb1). auto 10.
    + destruct (IH m1) as (-> & -> & -> & -> & -> & Hb1). auto 10.
    + auto 10.
Qed.

(** X17. The handles and the vertex layout are fixed by [init].  Whatever
    calls follow, and however each of them ends, the batch keeps its
    vertex array and its two buffer names, and every vertex array of the
    GL state (bindings, enabled slots, formats) is as [init] left it. *)
Theorem run_keeps_handles_and_layout (cs : list (Call (T := T)))
    (m : Machine) :
  m_vao (this (machine_of (run cs m))) = m_vao (this m)
  /\ m_vertex_data_vbo (this (machine_of (run cs m))) =
       m_vertex_data_vbo (this m)
  /\ m_draw_command_vbo (this (machine_of (run cs m))) =
       m_draw_command_vbo (this m)
  /\ gl_vaos (gl (machine_of (run cs m))) = gl_vaos (gl m).
Proof.
  destruct (run_frame cs m) as (_ & Ha & Hv & Hc & Hvaos & _). auto.
Qed.

(** X18. The sort key is always 0.  [init] sets [zIndex] to 0 and no member
    function assigns it afterwards, so of two batches that were
    initialized and then used in any way, neither is less than the
    other. *)
Theorem initialized_batches_never_less
    (r1 r2 : N) (attrs1 attrs2 : list VertexAttribute) (m1 m2 : Machine)
    (cs1 cs2 : list (Call (T := T))) :
  zIndex (this (machine_of (run cs1 (machine_of (init r1 attrs1 m1))))) = 0%Z
  /\ lt_Batch
       (this (machine_of (run cs1 (machine_of (init r1 attrs1 m1)))))
       (this (machine_of (run cs2 (machine_of (init r2 attrs2 m2)))))
     = false.
Proof.
  destruct (run_frame cs1 (machine_of (init r1 attrs1 m1))) as (Hz1 & _).
  destruct (run_frame cs2 (machine_of (init r2 attrs2 m2))) as (Hz2 & _).
  unfold lt_Batch. rewrite Hz1, Hz2. split; reflexivity.
Qed.

End Frame.

(** ** [operator<] *)

(** X19. [operator<] is a strict weak ordering that looks at [zIndex] only: it
    is irreflexive and transitive, and being unordered either way is
    transitive too, which is what sorting a collection of batches with
    it requires. *)
Theorem lt_Batch_strict_weak_order (a b c : Batch) :
  lt_Batch a a = false
  /\ (lt_Batch a b = true -> lt_Batch b c = true -> lt_Batch a c = true)
  /\ (lt_Batch a b = false -> lt_Batch b a = false ->
      lt_Batch b c = false -> lt_Batch c b = false ->
      lt_Batch a c = false /\ lt_Batch c a = false)
  /\ (lt_Batch a b = true <-> (zIndex a < zIndex b)%Z).
Proof.
  unfold lt_Batch. rewrite !Z.ltb_lt, !Z.ltb_ge.
  repeat split; try lia.
Qed.

Lemma lt_Batch_strict_weak_order_witness :
  lt_Batch (batch_with_key (-1)) (batch_with_key 2) = true
  /\ (lt_Batch (batch_with_key 2) (set_vertex_count 9 (batch_with_key 2))
        = false
      /\ lt_Batch (set_vertex_count 9 (batch_with_key 2)) (batch_with_key 2)
           = false)
  /\ (zIndex (batch_with_key (-1)) < zIndex (batch_with_key 0))%Z.
Proof.
  destruct (lt_Batch_strict_weak_order
              (batch_with_key (-1)) (batch_with_key 0) (batch_with_key 2))
    as (_ & Htrans & _ & Hkey).
  destruct (lt_Batch_strict_weak_order
              (batch_with_key 2) (set_vertex_count 7 (batch_with_key 2))
              (set_vertex_count 9 (batch_with_key 2)))
    as (_ & _ & Hunordered & _).
  split; [apply Htrans; reflexivity|].
  split; [apply Hunordered; reflexivity|].
  apply Hkey. reflexivity.
Defined.

(** ** The empty bulk call *)

(** X20. A bulk [AddVertex] of zero vertices on a ready batch whose count lies
    within the capacity and within the vertex buffer is a no-op: it runs
    to its end and leaves members, heap, GL state and log as they
    were. *)
Theorem AddVertex_array_of_nothing {T : Type} `{VertexLayout T}
    (array : list T) (m : Machine) :
  ready m = true ->
  m_vertex_count (this m) <= kMaxBatchSize ->
  m_vertex_count (this m) * sizeof_Vertex3D <= m_data_size (this m) ->
  exists m',
    AddVertex_array array 0 m = Completed m'
    /\ this m' = this m
    /\ heap m' = heap m
    /\ gl m' = gl m
    /\ log m' = log m.
Proof.
  intros Hready Hcount Hfit.
  pose proof (ready_not_null m Hready) as Hnull.
  apply ready_spec in Hready as (blk & buf & _ & _ & Hbuf & _ & _ & Hup & Hbsz).
  assert (Hk : kMaxBatchSize = 10000000) by reflexivity.
  assert (Hs : sizeof_Vertex3D = 28) by reflexivity.
  assert (Hoff : size_mul (m_vertex_count (this m)) sizeof_Vertex3D =
                 m_vertex_count (this m) * 28)
    by (apply size_mul_exact; [lia|reflexivity]).
  unfold AddVertex_array. rewrite Hnull.
  assert (Hroom : hasRoom (this m) = true) by (apply hasRoom_true; lia).
  rewrite Hroom, count_never_negative. simpl.
  rewrite Hoff. unfold glNamedBufferSubData. rewrite Hbuf, Hup. simpl.
  destruct (buf_size buf <? _) eqn:Hrange.
  { apply N.ltb_lt in Hrange.
    change (size_mul 0 sizeof_Vertex3D) with 0 in Hrange. lia. }
  eexists. split; [reflexivity|]. simpl.
  rewrite N.add_0_r, wrap32_small
    by (change (2 ^ 32) with 4294967296; lia).
  destruct m as [[] ? ? ? ?]. simpl. auto.
Qed.

Lemma AddVertex_array_of_nothing_witness :
  exists m',
    AddVertex_array [sample_vertex 4] 0 loaded_machine = Completed m'
    /\ this m' = this loaded_machine
    /\ heap m' = heap loaded_machine
    /\ gl m' = gl loaded_machine
    /\ log m' = log loaded_machine.
Proof.
  apply (AddVertex_array_of_nothing [sample_vertex 4] loaded_machine).
  - vm_compute. reflexivity.
  - vm_compute. discriminate.
  - vm_compute. discriminate.
Defined.
